(** * Annotation resolver of [_bentoml_sdk/_pydantic.py]

    A shallow embedding of the family handlers
    ([numpy_prepare_pydantic_annotations], [torch_prepare_pydantic_annotations],
    [tf_prepare_pydantic_annotations], [pandas_prepare_pydantic_annotations],
    [pil_prepare_pydantic_annotations], [pathlib_prepare_pydantic_annotations])
    and of the dispatch method
    [BentoMLPydanticGenerateSchema._get_prepare_pydantic_annotations_for_known_type].

    Python exceptions are results of type [outcome]; the in-place list
    updates of the handlers ([append], [del l[i]], [insert(0, _)]) are
    explicit state passing. *)

From Stdlib Require Import List String Bool Arith ZArith Lia DecimalString.
Import ListNotations.
Open Scope string_scope.
Open Scope list_scope.

Set Implicit Arguments.
Set Warnings "-register-all".

(** ** Exceptions and results *)

Inductive exn : Type :=
| TypeError
| IndexError
| AttributeError
| ValueError (msg : string)
| OtherError (name : string).

Inductive outcome (A : Type) : Type :=
| Ret (a : A)
| Raise (e : exn).

Arguments Ret {A} a.
Arguments Raise {A} e.

Definition bind {A B : Type} (m : outcome A) (k : A -> outcome B) : outcome B :=
  match m with
  | Ret a => k a
  | Raise e => Raise e
  end.

Declare Scope py_scope.
Delimit Scope py_scope with py.
Notation "x <- m ;; k" := (bind m (fun x => k))
  (at level 100, m at next level, right associativity) : py_scope.
Open Scope py_scope.

(** ** Python objects, as far as the handlers look at them

    A source type is an arbitrary Python object ([t.Any]).  The handlers
    observe its identity, its [__module__] attribute, whether [hash]
    accepts it, its class ancestry (through [issubclass]) and what the
    helpers of [typing_utils] and [np.dtype] return on it.  These helpers
    are not part of the module; each object carries their results. *)

(** [getattr(source, "__module__", "")]: the attribute may be missing (the
    default [""] is used), hold a string, or hold something that is not a
    string, on which [.startswith("...")] raises: AttributeError on [None],
    which has no such method, TypeError on [bytes], whose method rejects a
    [str] argument.  The exception is carried along. *)
Inductive module_attr : Type :=
| NoModule
| ModuleNotStr (raised : exn)
| Module (name : string).

(** What [typing_utils.get_origin] returns on an object: [None], the object
    itself, or another object. *)
Inductive origin_attr (A : Type) : Type :=
| OriginNone
| OriginSelf
| OriginIs (o : A).

Arguments OriginNone {A}.
Arguments OriginSelf {A}.
Arguments OriginIs {A} o.

Inductive pyobj : Type := PyObj {
  py_id : string;                  (* identity, compared by [is] and by set membership *)
  py_module : module_attr;         (* the [__module__] attribute *)
  py_hashable : bool;              (* [hash(obj)] succeeds; otherwise it raises TypeError *)
  py_mro : option (list string);   (* for a class: identities of the class and of its
                                      superclasses; [None] when the object is not a class *)
  py_origin : origin_attr pyobj;   (* result of [typing_utils.get_origin] *)
  py_args : list pyobj;            (* result of [typing_utils.get_args] *)
  py_dtype : outcome string        (* result of [np.dtype(obj).name] *)
}.

Definition get_origin (tp : pyobj) : option pyobj :=
  match py_origin tp with
  | OriginNone => None
  | OriginSelf => Some tp
  | OriginIs o => Some o
  end.

Definition get_args (tp : pyobj) : list pyobj := py_args tp.

Definition np_dtype_name (tp : pyobj) : outcome string := py_dtype tp.

(** [hash(obj)]: only success or TypeError matters to the resolver. *)
Definition hash (obj : pyobj) : outcome unit :=
  if py_hashable obj then Ret tt else Raise TypeError.

(** [getattr(source, "__module__", "").startswith(p)] *)
Definition module_startswith (source : pyobj) (p : string) : outcome bool :=
  match py_module source with
  | NoModule => Ret (prefix p "")
  | ModuleNotStr e => Raise e
  | Module m => Ret (prefix p m)
  end.

(** [origin is cls], for an [origin] that may be [None] *)
Definition is_ (origin : option pyobj) (cls : string) : bool :=
  match origin with
  | None => false
  | Some o => String.eqb (py_id o) cls
  end.

(** [issubclass(origin, cls)]: TypeError unless the first argument is a class *)
Definition issubclass (origin : option pyobj) (cls : string) : outcome bool :=
  match origin with
  | None => Raise TypeError
  | Some o =>
      match py_mro o with
      | None => Raise TypeError
      | Some mro => Ret (existsb (String.eqb cls) mro)
      end
  end.

(** [l[i]] for a tuple or list and a non-negative index *)
Definition getitem {A : Type} (l : list A) (i : nat) : outcome A :=
  match nth_error l i with
  | Some x => Ret x
  | None => Raise IndexError
  end.

(** [del l[i]] for a non-negative index *)
Definition delitem {A : Type} (l : list A) (i : nat) : outcome (list A) :=
  if Nat.ltb i (List.length l) then Ret (firstn i l ++ skipn (S i) l) else Raise IndexError.

(** [list(enumerate(l))] *)
Definition enumerate {A : Type} (l : list A) : list (nat * A) :=
  combine (seq 0 (List.length l)) l.

(** The classes the handlers compare against. *)
Definition np_ndarray : string := "numpy.ndarray".
Definition torch_Tensor : string := "torch.Tensor".
Definition tf_Tensor : string := "tensorflow.Tensor".
Definition pd_DataFrame : string := "pandas.DataFrame".
Definition Image_Image : string := "PIL.Image.Image".

(** ** Annotations *)

(** Modelled from the spec: the classes of [validators] ([Shape], [DType],
    [ContentType], [DataframeSchema], [TensorSchema], [FileSchema],
    [PILImageEncoder]) are not part of the module.  The handlers read
    [Shape.dimensions], [DType.dtype] and [ContentType.content_type], build
    [TensorSchema(format, dtype, shape)], [FileSchema(content_type=_)],
    [PILImageEncoder()] and [DataframeSchema()]; a [DataframeSchema] carries
    a configuration, [df_default] being the one of [DataframeSchema()]. *)
Inductive df_config : Type :=
| df_default
| df_custom (orient : string) (columns : list string).

Inductive annotation : Type :=
| Shape (dimensions : list Z)
| DType (dtype : string)
| ContentType (content_type : string)
| DataframeSchema (cfg : df_config)
| TensorSchema (format : string) (dtype : option string) (shape : option (list Z))
| FileSchema (content_type : option string)
| PILImageEncoder
| KnownMetadata (constraint : string) (value : Z)
| OtherAnnotation (tag : string).

(** The engine's configuration dictionary: passed to every handler, read by none. *)
Inductive ConfigDict : Type :=
| Config (entries : list (string * string)).

(** Modelled from the spec: [_known_annotated_metadata.collect_known_metadata]
    belongs to the validation engine; it splits an annotation collection into
    the metadata known to the engine (gathered in a dictionary) and a fresh
    list of the other annotations, in their order. *)
Definition is_known (a : annotation) : bool :=
  match a with
  | KnownMetadata _ _ => true
  | _ => false
  end.

Definition collect_known_metadata (annotations : list annotation)
  : list (string * Z) * list annotation :=
  (flat_map (fun a => match a with
                      | KnownMetadata k v => [(k, v)]
                      | _ => []
                      end) annotations,
   filter (fun a => negb (is_known a)) annotations).

(** What a handler returns: [None], or the pair of a type and a list of annotations. *)
Definition prepared : Type := option (pyobj * list annotation).

(** ** Numeric-array handler *)

(** [np.dtype(get_args(args[1])[0]).name if args else None] *)
Definition numpy_element_dtype (source : pyobj) : outcome (option string) :=
  let args := get_args source in
  match args with
  | [] => Ret None
  | _ :: _ =>
      a1 <- getitem args 1 ;;
      elem <- getitem (get_args a1) 0 ;;
      name <- np_dtype_name elem ;;
      Ret (Some name)
  end.

Record numpy_state : Type := NumpyState {
  np_dtype : option string;
  np_shape : option (list Z);
  np_remaining : list annotation
}.

Definition conflict_message (dtype other : string) : string :=
  ("Conflicting dtype annotations: " ++ dtype ++ " and " ++ other)%string.

(** One iteration of the loop over [other_annotations]. *)
Definition numpy_step (st : numpy_state) (a : annotation) : outcome numpy_state :=
  match a with
  | Shape dims => Ret (NumpyState (np_dtype st) (Some dims) (np_remaining st))
  | DType d =>
      match np_dtype st with
      | Some cur =>
          if negb (String.eqb cur d)
          then Raise (ValueError (conflict_message cur d))
          else Ret (NumpyState (Some d) (np_shape st) (np_remaining st))
      | None => Ret (NumpyState (Some d) (np_shape st) (np_remaining st))
      end
  | _ => Ret (NumpyState (np_dtype st) (np_shape st) (np_remaining st ++ [a]))
  end.

Fixpoint numpy_loop (other_annotations : list annotation) (st : numpy_state)
  : outcome numpy_state :=
  match other_annotations with
  | [] => Ret st
  | a :: rest => st' <- numpy_step st a ;; numpy_loop rest st'
  end.

Definition numpy_prepare_pydantic_annotations
  (source : pyobj) (annotations : list annotation) (config : ConfigDict)
  : outcome prepared :=
  in_family <- module_startswith source "numpy" ;;
  if negb in_family then Ret None else
  let origin := get_origin source in
  if negb (is_ origin np_ndarray) then Ret None else
  match numpy_element_dtype source with
  | Raise TypeError => Ret None
  | Raise e => Raise e
  | Ret dtype =>
      let other_annotations := snd (collect_known_metadata annotations) in
      st <- numpy_loop other_annotations (NumpyState dtype None []) ;;
      Ret (Some (source,
                 TensorSchema "numpy-array" (np_dtype st) (np_shape st)
                 :: np_remaining st))
  end.

(** ** ML-tensor handlers

    Both handlers run the same loop over
    [reversed(list(enumerate(remaining_annotations)))]: the pairs are taken
    from a snapshot of the list, the deletions act on the list itself. *)

Record tensor_state : Type := TensorState {
  ts_dtype : option string;
  ts_shape : option (list Z);
  ts_remaining : list annotation
}.

Definition tensor_step (st : tensor_state) (item : nat * annotation)
  : outcome tensor_state :=
  let '(i, a) := item in
  match a with
  | Shape dims =>
      remaining <- delitem (ts_remaining st) i ;;
      Ret (TensorState (ts_dtype st) (Some dims) remaining)
  | DType d =>
      remaining <- delitem (ts_remaining st) i ;;
      Ret (TensorState (Some d) (ts_shape st) remaining)
  | _ => Ret st
  end.

Fixpoint tensor_loop (items : list (nat * annotation)) (st : tensor_state)
  : outcome tensor_state :=
  match items with
  | [] => Ret st
  | item :: rest => st' <- tensor_step st item ;; tensor_loop rest st'
  end.

Definition torch_prepare_pydantic_annotations
  (source : pyobj) (annotations : list annotation) (config : ConfigDict)
  : outcome prepared :=
  in_family <- module_startswith source "torch" ;;
  if negb in_family then Ret None else
  let origin := get_origin source in
  sub <- issubclass origin torch_Tensor ;;
  if negb sub then Ret None else
  let remaining_annotations := snd (collect_known_metadata annotations) in
  st <- tensor_loop (rev (enumerate remaining_annotations))
                    (TensorState None None remaining_annotations) ;;
  Ret (Some (source,
             TensorSchema "torch-tensor" (ts_dtype st) (ts_shape st)
             :: ts_remaining st)).

Definition tf_prepare_pydantic_annotations
  (source : pyobj) (annotations : list annotation) (config : ConfigDict)
  : outcome prepared :=
  in_family <- module_startswith source "tensorflow" ;;
  if negb in_family then Ret None else
  let origin := get_origin source in
  sub <- issubclass origin tf_Tensor ;;
  if negb sub then Ret None else
  let remaining_annotations := snd (collect_known_metadata annotations) in
  st <- tensor_loop (rev (enumerate remaining_annotations))
                    (TensorState None None remaining_annotations) ;;
  Ret (Some (source,
             TensorSchema "tf-tensor" (ts_dtype st) (ts_shape st)
             :: ts_remaining st)).

(** ** Dataframe handler *)

Definition is_DataframeSchema (a : annotation) : bool :=
  match a with
  | DataframeSchema _ => true
  | _ => false
  end.

(** The handler returns [origin]; [issubclass] has rejected [None] before, so
    the last branch of the final [match] is never taken
    (see [pandas_origin_is_object]). *)
Definition pandas_prepare_pydantic_annotations
  (source : pyobj) (annotations : list annotation) (config : ConfigDict)
  : outcome prepared :=
  in_family <- module_startswith source "pandas" ;;
  if negb in_family then Ret None else
  let origin := get_origin source in
  sub <- issubclass origin pd_DataFrame ;;
  if negb sub then Ret None else
  let remaining_annotations := snd (collect_known_metadata annotations) in
  let remaining_annotations :=
    if negb (existsb is_DataframeSchema remaining_annotations)
    then DataframeSchema df_default :: remaining_annotations
    else remaining_annotations in
  match origin with
  | Some o => Ret (Some (o, remaining_annotations))
  | None => Raise TypeError
  end.

(** ** Image handler *)

Definition pil_prepare_pydantic_annotations
  (source : pyobj) (annotations : list annotation) (_config : ConfigDict)
  : outcome prepared :=
  in_family <- module_startswith source "PIL." ;;
  if negb in_family then Ret None else
  let origin := match get_origin source with
                | Some o => o
                | None => source
                end in
  sub <- issubclass (Some origin) Image_Image ;;
  if negb sub then Ret None else
  let remaining_annotations := snd (collect_known_metadata annotations) in
  Ret (Some (origin, PILImageEncoder :: remaining_annotations)).

(** ** Path handler *)

Definition path_types : list string :=
  [ "pathlib.PurePath"; "pathlib.PurePosixPath"; "pathlib.PureWindowsPath";
    "pathlib.Path"; "pathlib.PosixPath"; "pathlib.WindowsPath" ].

Record path_state : Type := PathState {
  ps_content_type : option string;
  ps_remaining : list annotation
}.

Definition path_step (st : path_state) (item : nat * annotation)
  : outcome path_state :=
  let '(i, a) := item in
  match a with
  | ContentType c =>
      remaining <- delitem (ps_remaining st) i ;;
      Ret (PathState (Some c) remaining)
  | _ => Ret st
  end.

Fixpoint path_loop (items : list (nat * annotation)) (st : path_state)
  : outcome path_state :=
  match items with
  | [] => Ret st
  | item :: rest => st' <- path_step st item ;; path_loop rest st'
  end.

(** [source not in {...}] hashes [source] before it compares. *)
Definition pathlib_prepare_pydantic_annotations
  (source : pyobj) (annotations : list annotation) (_config : ConfigDict)
  : outcome prepared :=
  _ <- hash source ;;
  if negb (existsb (String.eqb (py_id source)) path_types) then Ret None else
  let remaining_annotations := snd (collect_known_metadata annotations) in
  st <- path_loop (rev (enumerate remaining_annotations))
                  (PathState None remaining_annotations) ;;
  Ret (Some (source, FileSchema (ps_content_type st) :: ps_remaining st)).

(** ** Dispatch *)

Definition Preparer : Type :=
  pyobj -> list annotation -> ConfigDict -> outcome prepared.

(** The resolvers the dispatch method can invoke; the trace of a call lists
    the ones it did invoke, in order. *)
Inductive resolver : Type :=
| PathResolver
| EngineResolver
| NumpyResolver
| TorchResolver
| TfResolver
| PandasResolver
| PilResolver.

Definition CUSTOM_PREPARE_METHODS : list (resolver * Preparer) :=
  [ (NumpyResolver, numpy_prepare_pydantic_annotations);
    (TorchResolver, torch_prepare_pydantic_annotations);
    (TfResolver, tf_prepare_pydantic_annotations);
    (PandasResolver, pandas_prepare_pydantic_annotations);
    (PilResolver, pil_prepare_pydantic_annotations) ].

Section Dispatch.

(** [super()._get_prepare_pydantic_annotations_for_known_type], the
    engine's built-in resolution, and [self._config_wrapper.config_dict]. *)
Variable engine_known_type : pyobj -> list annotation -> outcome prepared.
Variable config_dict : ConfigDict.

(** [for preparer in CUSTOM_PREPARE_METHODS: ...] *)
Fixpoint try_preparers (preparers : list (resolver * Preparer))
  (obj : pyobj) (annotations : list annotation) (calls : list resolver)
  : list resolver * outcome prepared :=
  match preparers with
  | [] => (calls, Ret None)
  | (name, preparer) :: rest =>
      match preparer obj annotations config_dict with
      | Ret (Some res) => (calls ++ [name], Ret (Some res))
      | Ret None => try_preparers rest obj annotations (calls ++ [name])
      | Raise e => (calls ++ [name], Raise e)
      end
  end.

Definition _get_prepare_pydantic_annotations_for_known_type
  (obj : pyobj) (annotations : list annotation)
  : list resolver * outcome prepared :=
  match hash obj with
  | Raise TypeError => ([], Ret None)
  | Raise e => ([], Raise e)
  | Ret _ =>
      match pathlib_prepare_pydantic_annotations obj annotations config_dict with
      | Ret (Some res) => ([PathResolver], Ret (Some res))
      | Raise e => ([PathResolver], Raise e)
      | Ret None =>
          match engine_known_type obj annotations with
          | Ret (Some res) => ([PathResolver; EngineResolver], Ret (Some res))
          | Raise e => ([PathResolver; EngineResolver], Raise e)
          | Ret None =>
              try_preparers CUSTOM_PREPARE_METHODS obj annotations
                            [PathResolver; EngineResolver]
          end
      end
  end.

End Dispatch.

(** ** Sample objects

    The library classes and a few parametrized types, described by what the
    handlers observe on them. *)

Module Samples.

(** A class that is not generic: it is its own origin and has no arguments. *)
Definition plain_class (id module : string) (bases : list string) : pyobj :=
  PyObj id (Module module) true (Some (id :: bases)) OriginSelf []
        (Ret "object").

(** A parametrized alias [origin[args]]; [__module__] is the one of [origin]. *)
Definition generic_alias (id : string) (origin : pyobj) (args : list pyobj)
  : pyobj :=
  PyObj id (py_module origin) true None (OriginIs origin) args
        (Raise TypeError).

Definition ndarray : pyobj := plain_class np_ndarray "numpy" ["object"].
Definition Tensor : pyobj := plain_class torch_Tensor "torch" ["object"].
Definition tfTensor : pyobj :=
  plain_class tf_Tensor "tensorflow.python.framework.tensor" ["object"].
Definition DataFrame : pyobj :=
  plain_class pd_DataFrame "pandas.core.frame" ["object"].
Definition PILImage : pyobj := plain_class Image_Image "PIL.Image" ["object"].
Definition Path : pyobj :=
  plain_class "pathlib.Path" "pathlib" ["pathlib.PurePath"; "object"].
Definition PurePath : pyobj := plain_class "pathlib.PurePath" "pathlib" ["object"].
Definition PurePosixPath : pyobj :=
  plain_class "pathlib.PurePosixPath" "pathlib" ["pathlib.PurePath"; "object"].
Definition PureWindowsPath : pyobj :=
  plain_class "pathlib.PureWindowsPath" "pathlib" ["pathlib.PurePath"; "object"].
Definition PosixPath : pyobj :=
  plain_class "pathlib.PosixPath" "pathlib"
              ["pathlib.Path"; "pathlib.PurePosixPath"; "pathlib.PurePath"; "object"].
Definition WindowsPath : pyobj :=
  plain_class "pathlib.WindowsPath" "pathlib"
              ["pathlib.Path"; "pathlib.PureWindowsPath"; "pathlib.PurePath"; "object"].
Definition int : pyobj := plain_class "int" "builtins" ["object"].

(** [typing.Any]: no arguments, and [np.dtype] does not accept it. *)
Definition Any : pyobj :=
  PyObj "typing.Any" (Module "typing") true None OriginSelf []
        (Raise TypeError).

(** [np.float32], [np.dtype[np.float32]] and
    [np.ndarray[Any, np.dtype[np.float32]]] *)
Definition float32 : pyobj :=
  PyObj "numpy.float32" (Module "numpy") true
        (Some ["numpy.float32"; "numpy.floating"; "numpy.number"; "object"])
        OriginSelf [] (Ret "float32").
Definition np_dtype_class : pyobj := plain_class "numpy.dtype" "numpy" ["object"].
Definition dtype_float32 : pyobj :=
  generic_alias "numpy.dtype[numpy.float32]" np_dtype_class [float32].
Definition NDArray_float32 : pyobj :=
  generic_alias "numpy.ndarray[typing.Any, numpy.dtype[numpy.float32]]"
                ndarray [Any; dtype_float32].

(** [np.ndarray[Any, Any]]: the second argument has no arguments of its own. *)
Definition NDArray_Any_Any : pyobj :=
  generic_alias "numpy.ndarray[typing.Any, typing.Any]" ndarray [Any; Any].

(** A function of the [torch] package: it has a [__module__], it is not a
    class and it is not generic, so that [get_origin] gives the function
    itself. *)
Definition torch_relu : pyobj :=
  PyObj "torch.nn.functional.relu" (Module "torch.nn.functional") true None
        OriginSelf [] (Raise TypeError).

(** A generic subclass of [pd.DataFrame] declared in a package of the
    [pandas] namespace, and one of its parametrizations. *)
Definition TypedFrame : pyobj :=
  plain_class "pandas_typed.TypedFrame" "pandas_typed"
              [pd_DataFrame; "typing.Generic"; "object"].
Definition TypedFrame_int : pyobj :=
  generic_alias "pandas_typed.TypedFrame[int]" TypedFrame [int].

(** An object that [hash] rejects, such as a list. *)
Definition unhashable_list : pyobj :=
  PyObj "[]" NoModule false None OriginSelf [] (Raise TypeError).

Definition cfg : ConfigDict := Config [].

(** A bound method of a built-in object, such as [[].append]: it is
    hashable and its [__module__] is [None], not a string. *)
Definition bound_method : pyobj :=
  PyObj "[].append" (ModuleNotStr AttributeError) true None OriginSelf []
        (Raise TypeError).

(** A hashable object whose [__module__] holds [bytes]. *)
Definition bytes_module : pyobj :=
  PyObj "bytes_module" (ModuleNotStr TypeError) true None OriginSelf []
        (Raise TypeError).

(** A hashable object without a [__module__] attribute, such as [3]. *)
Definition three : pyobj :=
  PyObj "3" NoModule true None OriginSelf [] (Ret "int64").

End Samples.

Import Samples.

(** ** Reading a list of annotations

    [first_of f l] is the value [f] finds at the lowest index of [l],
    [last_of f l] the one at the highest index. *)

Definition as_shape (a : annotation) : option (list Z) :=
  match a with
  | Shape dims => Some dims
  | _ => None
  end.

Definition as_dtype (a : annotation) : option string :=
  match a with
  | DType d => Some d
  | _ => None
  end.

Definition as_content_type (a : annotation) : option string :=
  match a with
  | ContentType c => Some c
  | _ => None
  end.

Definition orelse {A : Type} (x y : option A) : option A :=
  match x with
  | Some _ => x
  | None => y
  end.

Fixpoint first_of {A : Type} (f : annotation -> option A) (l : list annotation)
  : option A :=
  match l with
  | [] => None
  | a :: rest => orelse (f a) (first_of f rest)
  end.

Fixpoint last_of {A : Type} (f : annotation -> option A) (l : list annotation)
  : option A :=
  match l with
  | [] => None
  | a :: rest => orelse (last_of f rest) (f a)
  end.

(** Annotations that are neither [Shape] nor [DType]. *)
Definition not_tensor_hint (a : annotation) : bool :=
  match a with
  | Shape _ | DType _ => false
  | _ => true
  end.

Definition not_content_type (a : annotation) : bool :=
  match a with
  | ContentType _ => false
  | _ => true
  end.

Definition other_annotations (annotations : list annotation) : list annotation :=
  snd (collect_known_metadata annotations).

Definition count_DataframeSchema (l : list annotation) : nat :=
  List.length (filter is_DataframeSchema l).

(** ** The families of the handlers, and the chain of the dispatch *)

(** The numeric-array family: the module is in the [numpy] namespace and
    the origin is [np.ndarray] itself. *)
Definition numpy_family (source : pyobj) : Prop :=
  module_startswith source "numpy" = Ret true /\
  is_ (get_origin source) np_ndarray = true.

Definition torch_family (source : pyobj) : Prop :=
  module_startswith source "torch" = Ret true /\
  issubclass (get_origin source) torch_Tensor = Ret true.

Definition tf_family (source : pyobj) : Prop :=
  module_startswith source "tensorflow" = Ret true /\
  issubclass (get_origin source) tf_Tensor = Ret true.

Definition pandas_family (source : pyobj) : Prop :=
  module_startswith source "pandas" = Ret true /\
  issubclass (get_origin source) pd_DataFrame = Ret true.

Section Chain.

Variable engine_known_type : pyobj -> list annotation -> outcome prepared.
Variable config_dict : ConfigDict.

(** The resolvers in the order the dispatch method goes through them. *)
Definition resolution_chain : list (resolver * Preparer) :=
  (PathResolver, pathlib_prepare_pydantic_annotations)
  :: (EngineResolver, fun obj annotations _ => engine_known_type obj annotations)
  :: CUSTOM_PREPARE_METHODS.

Definition declines (obj : pyobj) (annotations : list annotation)
  (p : resolver * Preparer) : Prop :=
  snd p obj annotations config_dict = Ret None.

End Chain.

(** An engine whose built-in resolution knows no type. *)
Definition engine_knows_nothing (obj : pyobj) (annotations : list annotation)
  : outcome prepared := Ret None.

(** ** Further notions for the handlers *)

(** [issubclass] rejects its first argument: it is [None] or not a class. *)
Definition not_a_class (origin : option pyobj) : Prop :=
  match origin with
  | None => True
  | Some o => py_mro o = None
  end.

(** [get_origin(source) or source] *)
Definition origin_or_source (source : pyobj) : pyobj :=
  match get_origin source with
  | Some o => o
  | None => source
  end.

Definition pil_family (source : pyobj) : Prop :=
  module_startswith source "PIL." = Ret true /\
  issubclass (Some (origin_or_source source)) Image_Image = Ret true.

(** The explicit [DType] values agree with one another and with the
    element-type name taken from the source type, when there is one. *)
Definition dtypes_agree (inferred : option string) (annotations : list annotation)
  : Prop :=
  (forall a b, In (DType a) annotations -> In (DType b) annotations -> a = b) /\
  (forall d a, inferred = Some d -> In (DType a) annotations -> a = d).

(** The namespace each family handler looks for at the start of
    [__module__]; the path handler and the engine look for none. *)
Definition namespace_of (name : resolver) : string :=
  match name with
  | NumpyResolver => "numpy"
  | TorchResolver => "torch"
  | TfResolver => "tensorflow"
  | PandasResolver => "pandas"
  | PilResolver => "PIL."
  | PathResolver | EngineResolver => ""
  end.

(** ** The version gate of [_bentoml_sdk/__init__.py]

    [pkg_version_info] is not part of the package; the tuple it returns for
    [pydantic] is the argument.  The gate compares it with [(2,)] and raises
    ImportError below; what the module imports afterwards is left out. *)

(** [a < b] on tuples of integers *)
Fixpoint tuple_lt (a b : list Z) : bool :=
  match a, b with
  | [], [] => false
  | [], _ :: _ => true
  | _ :: _, [] => false
  | x :: a', y :: b' => if Z.eqb x y then tuple_lt a' b' else Z.ltb x y
  end.

(** [str(n)] for an integer, and ['.'.join(map(str, ver))] *)
Definition str_int (n : Z) : string := NilZero.string_of_int (Z.to_int n).

Definition dotted (ver : list Z) : string := String.concat "." (map str_int ver).

Inductive import_outcome : Type :=
| Imported
| ImportError (msg : string).

Definition sdk_init (ver : list Z) : import_outcome :=
  if tuple_lt ver [2%Z]
  then ImportError ("The new SDK runs on pydantic>=2.0.0, but the you have "
                    ++ dotted ver ++ ". " ++ "Please upgrade it.")%string
  else Imported.

(** ** Facts on the engine's metadata split *)

Lemma other_annotations_cons (a : annotation) (l : list annotation) :
  other_annotations (a :: l) =
  if is_known a then other_annotations l else a :: other_annotations l.
Proof.
  unfold other_annotations; simpl. now destruct (is_known a).
Qed.

Lemma In_other_annotations (a : annotation) (l : list annotation) :
  In a (other_annotations l) <-> In a l /\ is_known a = false.
Proof.
  unfold other_annotations; simpl. rewrite filter_In.
  now destruct (is_known a).
Qed.

Lemma other_annotations_idempotent (l : list annotation) :
  other_annotations (other_annotations l) = other_annotations l.
Proof.
  induction l as [|a l IH]; [reflexivity|].
  rewrite other_annotations_cons.
  destruct (is_known a) eqn:K; [exact IH|].
  rewrite other_annotations_cons, K. now rewrite IH.
Qed.

Lemma other_annotations_unknown (l : list annotation) :
  Forall (fun a => is_known a = false) l -> other_annotations l = l.
Proof.
  induction 1 as [|a l K _ IH]; [reflexivity|].
  rewrite other_annotations_cons, K. now rewrite IH.
Qed.

Lemma first_of_other_annotations {A : Type} (f : annotation -> option A)
  (l : list annotation) :
  (forall k v, f (KnownMetadata k v) = None) ->
  first_of f (other_annotations l) = first_of f l.
Proof.
  intros Hf. induction l as [|a l IH]; [reflexivity|].
  rewrite other_annotations_cons.
  destruct a; simpl; rewrite ?Hf; simpl; now rewrite ?IH.
Qed.

Lemma existsb_other_annotations (p : annotation -> bool) (l : list annotation) :
  (forall k v, p (KnownMetadata k v) = false) ->
  existsb p (other_annotations l) = existsb p l.
Proof.
  intros Hp. induction l as [|a l IH]; [reflexivity|].
  rewrite other_annotations_cons.
  destruct a; simpl; rewrite ?Hp; simpl; now rewrite ?IH.
Qed.

(** ** The loop of the numeric-array handler *)

Lemma numpy_loop_agree (l : list annotation) (d : string) :
  (forall e, In (DType e) l -> e = d) ->
  forall sh acc,
    numpy_loop l (NumpyState (Some d) sh acc) =
    Ret (NumpyState (Some d) (orelse (last_of as_shape l) sh)
                    (acc ++ filter not_tensor_hint l)).
Proof.
  induction l as [|a l IH]; intros Hall sh acc.
  - simpl. now rewrite app_nil_r.
  - assert (Hl : forall e, In (DType e) l -> e = d)
      by (intros e He; apply Hall; now right).
    destruct a; simpl;
      try (rewrite (IH Hl); simpl; rewrite <- app_assoc; simpl;
           now destruct (last_of as_shape l)).
    + rewrite (IH Hl). now destruct (last_of as_shape l).
    + rewrite (Hall dtype (or_introl eq_refl)), String.eqb_refl. simpl.
      rewrite (IH Hl). now destruct (last_of as_shape l).
Qed.

Lemma numpy_loop_conflict (l : list annotation) (d : string) :
  (exists e, In (DType e) l /\ e <> d) ->
  forall sh acc,
    exists other,
      In (DType other) l /\ other <> d /\
      numpy_loop l (NumpyState (Some d) sh acc) =
      Raise (ValueError (conflict_message d other)).
Proof.
  induction l as [|a l IH]; intros [e [He Hne]] sh acc; [destruct He|].
  assert (Hrest : a <> DType e ->
                  forall sh' acc', exists other,
                    In (DType other) l /\ other <> d /\
                    numpy_loop l (NumpyState (Some d) sh' acc') =
                    Raise (ValueError (conflict_message d other))).
  { intros Ha sh' acc'. apply IH. exists e. split; [|exact Hne].
    destruct He as [He|He]; [contradiction|exact He]. }
  destruct a; simpl;
    try (edestruct Hrest as [o [Ho [Hod Hrun]]]; [discriminate|];
         exists o; split; [now right|split; [exact Hod|exact Hrun]]).
  destruct (String.eqb_spec d dtype) as [Heq|Hneq]; simpl.
  - subst dtype.
    destruct (Hrest ltac:(intros X; injection X; congruence) sh acc)
      as [o [Ho [Hod Hrun]]].
    exists o. split; [now right|split; [exact Hod|exact Hrun]].
  - exists dtype. split; [now left|]. split; [congruence|reflexivity].
Qed.

Lemma numpy_loop_two_explicit (l : list annotation) (a b : string) :
  In (DType a) l -> In (DType b) l -> a <> b ->
  forall sh acc,
    exists cur other,
      In (DType cur) l /\ In (DType other) l /\ cur <> other /\
      numpy_loop l (NumpyState None sh acc) =
      Raise (ValueError (conflict_message cur other)).
Proof.
  induction l as [|x l IH]; intros Ha Hb Hab sh acc; [destruct Ha|].
  assert (Hrest : (forall e, x <> DType e) ->
                  forall sh' acc', exists cur other,
                    In (DType cur) l /\ In (DType other) l /\ cur <> other /\
                    numpy_loop l (NumpyState None sh' acc') =
                    Raise (ValueError (conflict_message cur other))).
  { intros Hx sh' acc'. apply IH; [| |exact Hab].
    - destruct Ha as [Ha|Ha]; [now apply Hx in Ha|exact Ha].
    - destruct Hb as [Hb|Hb]; [now apply Hx in Hb|exact Hb]. }
  destruct x; simpl;
    try (edestruct Hrest as [c [o [Hc [Ho [Hco Hrun]]]]]; [discriminate|];
         exists c, o; split; [now right|];
         split; [now right|split; [exact Hco|exact Hrun]]).
  assert (Hex : exists e, In (DType e) l /\ e <> dtype).
  { destruct (String.eqb_spec a dtype) as [Heq|Hneq].
    - exists b. split; [|congruence].
      destruct Hb as [Hb|Hb]; [injection Hb; congruence|exact Hb].
    - exists a. split; [|exact Hneq].
      destruct Ha as [Ha|Ha]; [injection Ha; congruence|exact Ha]. }
  destruct (@numpy_loop_conflict l dtype Hex sh acc) as [o [Ho [Hod Hrun]]].
  exists dtype, o. split; [now left|].
  split; [now right|split; [congruence|exact Hrun]].
Qed.

(** ** The reverse scans with in-place deletion *)

Lemma combine_seq_snoc {A : Type} (p : list A) (a : A) (s : nat) :
  combine (seq s (List.length (p ++ [a]))) (p ++ [a]) =
  combine (seq s (List.length p)) p ++ [(s + List.length p, a)].
Proof.
  revert s. induction p as [|x p IH]; intros s; simpl.
  - now rewrite Nat.add_0_r.
  - rewrite IH. now rewrite Nat.add_succ_r.
Qed.

Lemma rev_enumerate_snoc {A : Type} (p : list A) (a : A) :
  rev (enumerate (p ++ [a])) = (List.length p, a) :: rev (enumerate p).
Proof.
  unfold enumerate. rewrite combine_seq_snoc, rev_app_distr. reflexivity.
Qed.

(** Deleting the element that follows a prefix [p]. *)
Lemma delitem_middle {A : Type} (p : list A) (a : A) (tail : list A) :
  delitem ((p ++ [a]) ++ tail) (List.length p) = Ret (p ++ tail).
Proof.
  unfold delitem. rewrite <- app_assoc. simpl.
  assert (Hlt : Nat.ltb (List.length p) (List.length (p ++ a :: tail)) = true).
  { apply Nat.ltb_lt. rewrite length_app. simpl. lia. }
  rewrite Hlt. f_equal. clear Hlt.
  induction p as [|x p IH]; simpl; [reflexivity|].
  f_equal. exact IH.
Qed.

Lemma first_of_snoc {A : Type} (f : annotation -> option A)
  (p : list annotation) (a : annotation) :
  first_of f (p ++ [a]) = orelse (first_of f p) (f a).
Proof.
  induction p as [|x p IH]; simpl.
  - now destruct (f a).
  - rewrite IH. now destruct (f x).
Qed.

Lemma filter_snoc {A : Type} (keep : A -> bool) (p : list A) (a : A) :
  filter keep (p ++ [a]) = filter keep p ++ (if keep a then [a] else []).
Proof.
  rewrite filter_app. reflexivity.
Qed.

(** Once the indices above the prefix [p] are done, the list holds [p]
    followed by what was kept; the scan of [p] keeps, for each kind, the value
    at the lowest index that has one. *)
Lemma tensor_loop_prefix (p : list annotation) :
  forall (tail : list annotation) (dt : option string) (sh : option (list Z)),
    tensor_loop (rev (enumerate p)) (TensorState dt sh (p ++ tail)) =
    Ret (TensorState (orelse (first_of as_dtype p) dt)
                     (orelse (first_of as_shape p) sh)
                     (filter not_tensor_hint p ++ tail)).
Proof.
  induction p as [|a p IH] using rev_ind; intros tail dt sh; [reflexivity|].
  rewrite rev_enumerate_snoc, !first_of_snoc, filter_snoc.
  destruct a; simpl;
    try (rewrite <- app_assoc; simpl; rewrite IH, <- app_assoc; simpl;
         now destruct (first_of as_dtype p), (first_of as_shape p)).
  - rewrite delitem_middle. simpl. rewrite IH, app_nil_r.
    now destruct (first_of as_dtype p), (first_of as_shape p).
  - rewrite delitem_middle. simpl. rewrite IH, app_nil_r.
    now destruct (first_of as_dtype p), (first_of as_shape p).
Qed.

Lemma tensor_loop_spec (l : list annotation) :
  tensor_loop (rev (enumerate l)) (TensorState None None l) =
  Ret (TensorState (first_of as_dtype l) (first_of as_shape l)
                   (filter not_tensor_hint l)).
Proof.
  pose proof (tensor_loop_prefix l [] None None) as H.
  rewrite !app_nil_r in H. rewrite H.
  now destruct (first_of as_dtype l), (first_of as_shape l).
Qed.

Lemma path_loop_prefix (p : list annotation) :
  forall (tail : list annotation) (ct : option string),
    path_loop (rev (enumerate p)) (PathState ct (p ++ tail)) =
    Ret (PathState (orelse (first_of as_content_type p) ct)
                   (filter not_content_type p ++ tail)).
Proof.
  induction p as [|a p IH] using rev_ind; intros tail ct; [reflexivity|].
  rewrite rev_enumerate_snoc, first_of_snoc, filter_snoc.
  destruct a; simpl;
    try (rewrite <- app_assoc; simpl; rewrite IH, <- app_assoc; simpl;
         now destruct (first_of as_content_type p)).
  rewrite delitem_middle. simpl. rewrite IH, app_nil_r.
  now destruct (first_of as_content_type p).
Qed.

Lemma path_loop_spec (l : list annotation) :
  path_loop (rev (enumerate l)) (PathState None l) =
  Ret (PathState (first_of as_content_type l) (filter not_content_type l)).
Proof.
  pose proof (path_loop_prefix l [] None) as H.
  rewrite !app_nil_r in H. rewrite H.
  now destruct (first_of as_content_type l).
Qed.

(** ** Numeric-array handler: results *)

Lemma numpy_prepare_in_family (source : pyobj) (annotations : list annotation)
  (config : ConfigDict) :
  numpy_family source ->
  numpy_prepare_pydantic_annotations source annotations config =
  match numpy_element_dtype source with
  | Raise TypeError => Ret None
  | Raise e => Raise e
  | Ret dtype =>
      st <- numpy_loop (other_annotations annotations) (NumpyState dtype None []) ;;
      Ret (Some (source,
                 TensorSchema "numpy-array" (np_dtype st) (np_shape st)
                 :: np_remaining st))
  end.
Proof.
  intros [Hmod Horigin]. unfold numpy_prepare_pydantic_annotations.
  rewrite Hmod. simpl. rewrite Horigin. reflexivity.
Qed.

Lemma In_DType_other_annotations (e : string) (l : list annotation) :
  In (DType e) (other_annotations l) <-> In (DType e) l.
Proof.
  rewrite In_other_annotations. simpl. tauto.
Qed.

(** C1. For a source type of the numeric-array family whose generic
    parameter gives the element-type name [d], and annotations that hold an
    explicit [DType]: when the explicit values all equal [d], resolution
    succeeds and the dtype of the [TensorSchema] is [d]; when an explicit
    value differs from [d], resolution raises the conflict [ValueError]
    (it returns neither a result nor [None]). *)
Theorem numpy_inferred_and_explicit_dtype
  (source : pyobj) (annotations : list annotation) (config : ConfigDict)
  (d : string) :
  numpy_family source ->
  numpy_element_dtype source = Ret (Some d) ->
  (In (DType d) annotations ->
   (forall e, In (DType e) annotations -> e = d) ->
   numpy_prepare_pydantic_annotations source annotations config =
   Ret (Some (source,
              TensorSchema "numpy-array" (Some d)
                           (last_of as_shape (other_annotations annotations))
              :: filter not_tensor_hint (other_annotations annotations))))
  /\
  (forall e, In (DType e) annotations -> e <> d ->
   exists other,
     In (DType other) annotations /\ other <> d /\
     numpy_prepare_pydantic_annotations source annotations config =
     Raise (ValueError (conflict_message d other))).
Proof.
  intros Hfam Hinfer. rewrite (numpy_prepare_in_family _ _ Hfam), Hinfer.
  split.
  - intros _ Hall.
    rewrite numpy_loop_agree.
    + simpl. now destruct (last_of as_shape (other_annotations annotations)).
    + intros e He. apply Hall. now apply In_DType_other_annotations.
  - intros e He Hne.
    destruct (@numpy_loop_conflict (other_annotations annotations) d) with
      (sh := @None (list Z)) (acc := @nil annotation) as [o [Ho [Hod Hrun]]].
    + exists e. split; [now apply In_DType_other_annotations|exact Hne].
    + exists o. split; [now apply In_DType_other_annotations|].
      split; [exact Hod|]. now rewrite Hrun.
Qed.

(** [np.ndarray[Any, np.dtype[np.float32]]] with [DType("float32")] resolves;
    with [DType("float64")] it raises. *)
Lemma numpy_inferred_and_explicit_dtype_witness :
  numpy_prepare_pydantic_annotations
    NDArray_float32 [Shape [3%Z; 224%Z]; DType "float32"; OtherAnnotation "doc"] cfg =
  Ret (Some (NDArray_float32,
             [TensorSchema "numpy-array" (Some "float32") (Some [3%Z; 224%Z]);
              OtherAnnotation "doc"]))
  /\
  exists other,
    In (DType other) [DType "float64"] /\ other <> "float32" /\
    numpy_prepare_pydantic_annotations NDArray_float32 [DType "float64"] cfg =
    Raise (ValueError (conflict_message "float32" other)).
Proof.
  split.
  - apply (numpy_inferred_and_explicit_dtype
             (source := NDArray_float32)
             [Shape [3%Z; 224%Z]; DType "float32"; OtherAnnotation "doc"] cfg
             (d := "float32")).
    + split; reflexivity.
    + reflexivity.
    + simpl. auto.
    + intros e [H|[H|[H|[]]]]; try discriminate. now injection H.
  - apply (numpy_inferred_and_explicit_dtype
             (source := NDArray_float32) [DType "float64"] cfg
             (d := "float32")) with (e := "float64").
    + split; reflexivity.
    + reflexivity.
    + simpl. auto.
    + discriminate.
Defined.

(** C10. With no element type inferred from the source type, two explicit
    [DType] annotations of different values raise the conflict error: the
    dtype held when the check fails was set by an explicit annotation. *)
Theorem numpy_two_explicit_dtypes_conflict
  (source : pyobj) (annotations : list annotation) (config : ConfigDict)
  (a b : string) :
  numpy_family source ->
  numpy_element_dtype source = Ret None ->
  In (DType a) annotations -> In (DType b) annotations -> a <> b ->
  exists cur other,
    In (DType cur) annotations /\ In (DType other) annotations /\
    cur <> other /\
    numpy_prepare_pydantic_annotations source annotations config =
    Raise (ValueError (conflict_message cur other)).
Proof.
  intros Hfam Hinfer Ha Hb Hab.
  rewrite (numpy_prepare_in_family _ _ Hfam), Hinfer.
  destruct (@numpy_loop_two_explicit (other_annotations annotations) a b)
    with (sh := @None (list Z)) (acc := @nil annotation)
    as [c [o [Hc [Ho [Hco Hrun]]]]];
    try (now apply In_DType_other_annotations); [exact Hab|].
  exists c, o. rewrite In_DType_other_annotations in Hc, Ho.
  repeat split; try assumption. now rewrite Hrun.
Qed.

(** Plain [np.ndarray] with [DType("float64")] then [DType("float32")]. *)
Lemma numpy_two_explicit_dtypes_conflict_witness :
  exists cur other,
    In (DType cur) [DType "float64"; Shape [2%Z]; DType "float32"] /\
    In (DType other) [DType "float64"; Shape [2%Z]; DType "float32"] /\
    cur <> other /\
    numpy_prepare_pydantic_annotations
      ndarray [DType "float64"; Shape [2%Z]; DType "float32"] cfg =
    Raise (ValueError (conflict_message cur other)).
Proof.
  apply (numpy_two_explicit_dtypes_conflict
           (source := ndarray) [DType "float64"; Shape [2%Z]; DType "float32"] cfg
           (a := "float64") (b := "float32")).
  - split; reflexivity.
  - reflexivity.
  - simpl. auto.
  - simpl. auto.
  - discriminate.
Defined.

(** The check is against the value held: an explicit [DType] sets it when
    nothing is held, and is compared with it otherwise. *)
Lemma numpy_step_dtype (cur : option string) (sh : option (list Z))
  (acc : list annotation) (d : string) :
  numpy_step (NumpyState cur sh acc) (DType d) =
  match cur with
  | None => Ret (NumpyState (Some d) sh acc)
  | Some c =>
      if String.eqb c d then Ret (NumpyState (Some d) sh acc)
      else Raise (ValueError (conflict_message c d))
  end.
Proof.
  destruct cur as [c|]; [|reflexivity].
  simpl. now destruct (String.eqb c d).
Qed.

(** A TypeError of the element-type extraction makes the handler return
    [None]. *)
Lemma numpy_type_error_not_applicable
  (source : pyobj) (annotations : list annotation) (config : ConfigDict) :
  numpy_family source ->
  numpy_element_dtype source = Raise TypeError ->
  numpy_prepare_pydantic_annotations source annotations config = Ret None.
Proof.
  intros Hfam Hinfer. now rewrite (numpy_prepare_in_family _ _ Hfam), Hinfer.
Qed.

(** C4. [np.ndarray[Any, Any]] is in the numeric-array family; the second
    generic argument has no arguments of its own, [get_args(args[1])[0]]
    raises IndexError, and the handler lets it through: only TypeError is
    caught. *)
Theorem numpy_index_error_propagates :
  numpy_family NDArray_Any_Any /\
  numpy_element_dtype NDArray_Any_Any = Raise IndexError /\
  numpy_prepare_pydantic_annotations NDArray_Any_Any [] cfg = Raise IndexError.
Proof.
  repeat split.
Qed.

(** ** ML-tensor handlers: results *)

Lemma first_of_as_dtype_other (l : list annotation) :
  first_of as_dtype (other_annotations l) = first_of as_dtype l.
Proof. now apply first_of_other_annotations. Qed.

Lemma first_of_as_shape_other (l : list annotation) :
  first_of as_shape (other_annotations l) = first_of as_shape l.
Proof. now apply first_of_other_annotations. Qed.

(** C2. With two [DType] and two [Shape] annotations, both tensor handlers
    keep the values of index 0 and 1, not those of the later annotations at
    index 2 and 3, although they remove all four; the numeric-array
    handler, on two [Shape] annotations, keeps the later one. *)
Lemma tensor_later_annotation_not_kept :
  last_of as_dtype [DType "float32"; Shape [3%Z]; DType "int64"; Shape [4%Z]]
  = Some "int64" /\
  last_of as_shape [DType "float32"; Shape [3%Z]; DType "int64"; Shape [4%Z]]
  = Some [4%Z] /\
  torch_family Tensor /\
  torch_prepare_pydantic_annotations
    Tensor [DType "float32"; Shape [3%Z]; DType "int64"; Shape [4%Z]] cfg
  = Ret (Some (Tensor, [TensorSchema "torch-tensor" (Some "float32") (Some [3%Z])])) /\
  tf_family tfTensor /\
  tf_prepare_pydantic_annotations
    tfTensor [DType "float32"; Shape [3%Z]; DType "int64"; Shape [4%Z]] cfg
  = Ret (Some (tfTensor, [TensorSchema "tf-tensor" (Some "float32") (Some [3%Z])])) /\
  numpy_prepare_pydantic_annotations ndarray [Shape [3%Z]; Shape [4%Z]] cfg
  = Ret (Some (ndarray, [TensorSchema "numpy-array" None (Some [4%Z])])) /\
  ~ (forall source annotations config,
        torch_family source ->
        exists remaining,
          torch_prepare_pydantic_annotations source annotations config =
          Ret (Some (source,
                     TensorSchema "torch-tensor" (last_of as_dtype annotations)
                                  (last_of as_shape annotations)
                     :: remaining))).
Proof.
  repeat split.
  intros Hclaim.
  destruct (Hclaim Tensor
                   [DType "float32"; Shape [3%Z]; DType "int64"; Shape [4%Z]]
                   cfg (conj eq_refl eq_refl)) as [remaining Hrun].
  discriminate Hrun.
Qed.

(** What the two tensor handlers compute on a matched source type: the
    dtype and the shape of the [TensorSchema] are those of the lowest-index
    [DType] and [Shape] annotations, and every [DType] and [Shape]
    annotation is removed from the remaining annotations, which keep their
    order. *)
Lemma tensor_handlers_keep_earliest
  (source : pyobj) (annotations : list annotation) (config : ConfigDict) :
  (torch_family source ->
   torch_prepare_pydantic_annotations source annotations config =
   Ret (Some (source,
              TensorSchema "torch-tensor" (first_of as_dtype annotations)
                           (first_of as_shape annotations)
              :: filter not_tensor_hint (other_annotations annotations))))
  /\
  (tf_family source ->
   tf_prepare_pydantic_annotations source annotations config =
   Ret (Some (source,
              TensorSchema "tf-tensor" (first_of as_dtype annotations)
                           (first_of as_shape annotations)
              :: filter not_tensor_hint (other_annotations annotations)))).
Proof.
  split; intros [Hmod Hsub].
  - unfold torch_prepare_pydantic_annotations.
    rewrite Hmod. simpl. rewrite Hsub. simpl.
    change (snd (collect_known_metadata annotations))
      with (other_annotations annotations).
    rewrite tensor_loop_spec. simpl.
    now rewrite first_of_as_dtype_other, first_of_as_shape_other.
  - unfold tf_prepare_pydantic_annotations.
    rewrite Hmod. simpl. rewrite Hsub. simpl.
    change (snd (collect_known_metadata annotations))
      with (other_annotations annotations).
    rewrite tensor_loop_spec. simpl.
    now rewrite first_of_as_dtype_other, first_of_as_shape_other.
Qed.

Lemma tensor_handlers_keep_earliest_witness :
  torch_prepare_pydantic_annotations
    Tensor [DType "float32"; OtherAnnotation "doc"; DType "int64"; Shape [4%Z]] cfg
  = Ret (Some (Tensor,
               [TensorSchema "torch-tensor" (Some "float32") (Some [4%Z]);
                OtherAnnotation "doc"]))
  /\
  tf_prepare_pydantic_annotations
    tfTensor [Shape [3%Z]; KnownMetadata "gt" 0%Z; Shape [4%Z]] cfg
  = Ret (Some (tfTensor, [TensorSchema "tf-tensor" None (Some [3%Z])])).
Proof.
  split.
  - apply (tensor_handlers_keep_earliest
             Tensor
             [DType "float32"; OtherAnnotation "doc"; DType "int64"; Shape [4%Z]]
             cfg).
    split; reflexivity.
  - apply (tensor_handlers_keep_earliest
             tfTensor [Shape [3%Z]; KnownMetadata "gt" 0%Z; Shape [4%Z]] cfg).
    split; reflexivity.
Defined.

(** C9. A function of the [torch] package is in the namespace of the torch
    handler and is not a class: [issubclass] raises TypeError and the handler
    lets it through. *)
Theorem torch_non_class_origin_raises :
  module_startswith torch_relu "torch" = Ret true /\
  get_origin torch_relu = Some torch_relu /\
  py_mro torch_relu = None /\
  torch_prepare_pydantic_annotations torch_relu [] cfg = Raise TypeError.
Proof.
  repeat split.
Qed.

(** ** Dataframe handler: results *)

Lemma pandas_prepare_in_family (source : pyobj) (annotations : list annotation)
  (config : ConfigDict) :
  pandas_family source ->
  exists origin,
    get_origin source = Some origin /\
    pandas_prepare_pydantic_annotations source annotations config =
    Ret (Some (origin,
               if existsb is_DataframeSchema annotations
               then other_annotations annotations
               else DataframeSchema df_default :: other_annotations annotations)).
Proof.
  intros [Hmod Hsub]. unfold pandas_prepare_pydantic_annotations.
  rewrite Hmod. simpl. rewrite Hsub. simpl.
  destruct (get_origin source) as [o|]; [|discriminate Hsub].
  exists o. split; [reflexivity|].
  change (snd (collect_known_metadata annotations))
    with (other_annotations annotations).
  rewrite existsb_other_annotations by reflexivity.
  now destruct (existsb is_DataframeSchema annotations).
Qed.

(** The handler never reaches the last branch of its final [match]. *)
Lemma pandas_origin_is_object (source : pyobj) :
  issubclass (get_origin source) pd_DataFrame = Ret true ->
  exists origin, get_origin source = Some origin.
Proof.
  destruct (get_origin source) as [o|]; [now exists o|discriminate].
Qed.

(** A parametrized dataframe type is matched, and what comes back is its
    origin, a different object. *)
Lemma pandas_returns_origin_not_source :
  pandas_family TypedFrame_int /\
  pandas_prepare_pydantic_annotations TypedFrame_int [] cfg =
  Ret (Some (TypedFrame, [DataframeSchema df_default])) /\
  TypedFrame <> TypedFrame_int /\
  ~ (forall source annotations config,
        pandas_family source ->
        exists remaining,
          pandas_prepare_pydantic_annotations source annotations config =
          Ret (Some (source, remaining))).
Proof.
  repeat split; try discriminate.
  intros Hclaim.
  destruct (Hclaim TypedFrame_int [] cfg (conj eq_refl eq_refl))
    as [remaining Hrun].
  discriminate Hrun.
Qed.

(** C3, amended. For a source type matched by the dataframe handler, the
    type returned in the result pair is the generic origin of the source
    type, [get_origin(source)]; it is the source type itself when the source
    type is its own origin. *)
Theorem pandas_returns_origin
  (source : pyobj) (annotations : list annotation) (config : ConfigDict) :
  pandas_family source ->
  exists origin remaining,
    get_origin source = Some origin /\
    pandas_prepare_pydantic_annotations source annotations config =
    Ret (Some (origin, remaining)) /\
    (py_origin source = OriginSelf -> origin = source).
Proof.
  intros Hfam.
  destruct (pandas_prepare_in_family annotations config Hfam) as [o [Ho Hrun]].
  exists o. eexists. split; [exact Ho|]. split; [exact Hrun|].
  intros Hself. unfold get_origin in Ho. rewrite Hself in Ho. congruence.
Qed.

Lemma pandas_returns_origin_witness :
  exists origin remaining,
    get_origin DataFrame = Some origin /\
    pandas_prepare_pydantic_annotations DataFrame [OtherAnnotation "doc"] cfg =
    Ret (Some (origin, remaining)) /\
    (py_origin DataFrame = OriginSelf -> origin = DataFrame).
Proof.
  apply (@pandas_returns_origin DataFrame [OtherAnnotation "doc"] cfg).
  split; reflexivity.
Defined.

Lemma count_DataframeSchema_other (l : list annotation) :
  count_DataframeSchema (other_annotations l) = count_DataframeSchema l.
Proof.
  unfold count_DataframeSchema.
  induction l as [|a l IH]; [reflexivity|].
  rewrite other_annotations_cons.
  destruct a; simpl; now rewrite ?IH.
Qed.

Lemma count_DataframeSchema_zero (l : list annotation) :
  existsb is_DataframeSchema l = false -> count_DataframeSchema l = 0.
Proof.
  unfold count_DataframeSchema.
  induction l as [|a l IH]; [reflexivity|].
  simpl. destruct (is_DataframeSchema a); [discriminate|exact IH].
Qed.

(** C7. For a source type matched by the dataframe handler: when the input
    holds no [DataframeSchema], the result is the default [DataframeSchema]
    in front of the remaining annotations, and holds exactly one; when the
    input holds one, the result is the remaining annotations as they are
    (the input itself when no annotation is metadata of the engine), with as
    many [DataframeSchema] as the input; and resolving the result again, for
    any matched type, gives the same annotations. *)
Theorem pandas_schema_inserted_once
  (source : pyobj) (annotations : list annotation) (config : ConfigDict) :
  pandas_family source ->
  exists origin out,
    pandas_prepare_pydantic_annotations source annotations config =
    Ret (Some (origin, out)) /\
    (existsb is_DataframeSchema annotations = false ->
     out = DataframeSchema df_default :: other_annotations annotations /\
     count_DataframeSchema out = 1) /\
    (existsb is_DataframeSchema annotations = true ->
     out = other_annotations annotations /\
     count_DataframeSchema out = count_DataframeSchema annotations /\
     (Forall (fun a => is_known a = false) annotations -> out = annotations)) /\
    (forall source' config',
        pandas_family source' ->
        exists origin',
          pandas_prepare_pydantic_annotations source' out config' =
          Ret (Some (origin', out))).
Proof.
  intros Hfam.
  destruct (pandas_prepare_in_family annotations config Hfam) as [o [_ Hrun]].
  exists o. eexists. split; [exact Hrun|].
  destruct (existsb is_DataframeSchema annotations) eqn:Hany.
  - split; [discriminate|]. split.
    + intros _. split; [reflexivity|]. split.
      * apply count_DataframeSchema_other.
      * apply other_annotations_unknown.
    + intros source' config' Hfam'.
      destruct (pandas_prepare_in_family (other_annotations annotations)
                                         config' Hfam') as [o' [_ Hrun']].
      exists o'. rewrite Hrun'.
      rewrite existsb_other_annotations, Hany by reflexivity.
      now rewrite other_annotations_idempotent.
  - split; [|split; [discriminate|]].
    + intros _. split; [reflexivity|].
      unfold count_DataframeSchema. simpl.
      fold (count_DataframeSchema (other_annotations annotations)).
      rewrite count_DataframeSchema_other.
      now rewrite (count_DataframeSchema_zero _ Hany).
    + intros source' config' Hfam'.
      destruct (pandas_prepare_in_family
                  (DataframeSchema df_default :: other_annotations annotations)
                  config' Hfam') as [o' [_ Hrun']].
      exists o'. rewrite Hrun'. simpl.
      rewrite other_annotations_cons. simpl.
      now rewrite other_annotations_idempotent.
Qed.

(** [pd.DataFrame] without a [DataframeSchema], and its result resolved again. *)
Lemma pandas_schema_inserted_once_witness :
  (exists origin,
      pandas_prepare_pydantic_annotations
        DataFrame [OtherAnnotation "doc"; KnownMetadata "gt" 0%Z] cfg =
      Ret (Some (origin, [DataframeSchema df_default; OtherAnnotation "doc"])))
  /\
  (exists origin,
      pandas_prepare_pydantic_annotations
        DataFrame [DataframeSchema df_default; OtherAnnotation "doc"] cfg =
      Ret (Some (origin, [DataframeSchema df_default; OtherAnnotation "doc"]))).
Proof.
  destruct (@pandas_schema_inserted_once
              DataFrame [OtherAnnotation "doc"; KnownMetadata "gt" 0%Z] cfg
              (conj eq_refl eq_refl))
    as [origin [out [Hrun [Habsent [_ Hagain]]]]].
  destruct (Habsent eq_refl) as [Hout _].
  rewrite Hout in Hrun, Hagain.
  split.
  - exists origin. exact Hrun.
  - exact (Hagain DataFrame cfg (conj eq_refl eq_refl)).
Defined.

(** ** Path handler: results *)

Lemma first_of_as_content_type_other (l : list annotation) :
  first_of as_content_type (other_annotations l) = first_of as_content_type l.
Proof. now apply first_of_other_annotations. Qed.

Lemma existsb_eqb_In (x : string) (l : list string) :
  existsb (String.eqb x) l = true <-> In x l.
Proof.
  rewrite existsb_exists. split.
  - intros [y [Hy Heq]]. apply String.eqb_eq in Heq. now subst.
  - intros Hx. exists x. split; [exact Hx|apply String.eqb_refl].
Qed.

Lemma first_of_content_type_none (l : list annotation) :
  (forall c, ~ In (ContentType c) l) -> first_of as_content_type l = None.
Proof.
  induction l as [|a l IH]; intros Hno; [reflexivity|].
  simpl. rewrite IH by (intros c Hc; apply (Hno c); now right).
  destruct a; try reflexivity.
  exfalso. apply (Hno content_type). now left.
Qed.

Lemma first_of_content_type_found (pre post : list annotation) (c : string) :
  (forall c', ~ In (ContentType c') pre) ->
  first_of as_content_type (pre ++ ContentType c :: post) = Some c.
Proof.
  induction pre as [|a pre IH]; intros Hno; [reflexivity|].
  simpl. rewrite IH by (intros c' Hc; apply (Hno c'); now right).
  destruct a; try reflexivity.
  exfalso. apply (Hno content_type). now left.
Qed.

Lemma bind_ret {A B : Type} (a : A) (k : A -> outcome B) :
  bind (Ret a) k = k a.
Proof. reflexivity. Qed.

Lemma hash_hashable (obj : pyobj) :
  py_hashable obj = true -> hash obj = Ret tt.
Proof. unfold hash. now intros ->. Qed.

(** C8. A hashable source type is matched by the path handler exactly when
    it is one of the six path classes.  For these the result is the source
    type with [FileSchema(content_type)] in front of the remaining
    annotations, from which every [ContentType] is removed; [content_type]
    is [None] when no [ContentType] annotation is supplied and the value of
    the annotation when one is (the earliest one when there are several). *)
Theorem pathlib_matches_six_types
  (source : pyobj) (annotations : list annotation) (config : ConfigDict) :
  py_hashable source = true ->
  (In (py_id source)
      [ "pathlib.PurePath"; "pathlib.PurePosixPath"; "pathlib.PureWindowsPath";
        "pathlib.Path"; "pathlib.PosixPath"; "pathlib.WindowsPath" ] ->
   pathlib_prepare_pydantic_annotations source annotations config =
   Ret (Some (source,
              FileSchema (first_of as_content_type annotations)
              :: filter not_content_type (other_annotations annotations))) /\
   (forall c, ~ In (ContentType c)
                   (filter not_content_type (other_annotations annotations))) /\
   ((forall c, ~ In (ContentType c) annotations) ->
    first_of as_content_type annotations = None) /\
   (forall pre c post,
       annotations = pre ++ ContentType c :: post ->
       (forall c', ~ In (ContentType c') pre) ->
       first_of as_content_type annotations = Some c))
  /\
  (~ In (py_id source)
        [ "pathlib.PurePath"; "pathlib.PurePosixPath"; "pathlib.PureWindowsPath";
          "pathlib.Path"; "pathlib.PosixPath"; "pathlib.WindowsPath" ] ->
   pathlib_prepare_pydantic_annotations source annotations config = Ret None).
Proof.
  intros Hhash.
  unfold pathlib_prepare_pydantic_annotations.
  rewrite (hash_hashable _ Hhash), bind_ret.
  change (snd (collect_known_metadata annotations))
    with (other_annotations annotations).
  split.
  - intros Hin. apply (existsb_eqb_In (py_id source) path_types) in Hin.
    rewrite Hin. cbv beta iota delta [negb].
    rewrite path_loop_spec, bind_ret. cbv beta iota delta [ps_content_type ps_remaining].
    rewrite first_of_as_content_type_other.
    split; [reflexivity|]. split.
    + intros c Hc. apply filter_In in Hc. destruct Hc as [_ Hc]. discriminate Hc.
    + split.
      * apply first_of_content_type_none.
      * intros pre c post -> Hpre. now apply first_of_content_type_found.
  - intros Hnot.
    destruct (existsb (String.eqb (py_id source)) path_types) eqn:Hex;
      [|reflexivity].
    exfalso. apply Hnot. now apply (existsb_eqb_In (py_id source) path_types).
Qed.

(** [pathlib.PosixPath] with [ContentType("application/pdf")], and [int]. *)
Lemma pathlib_matches_six_types_witness :
  pathlib_prepare_pydantic_annotations
    PosixPath [OtherAnnotation "doc"; ContentType "application/pdf"] cfg =
  Ret (Some (PosixPath,
             [FileSchema (Some "application/pdf"); OtherAnnotation "doc"]))
  /\
  pathlib_prepare_pydantic_annotations
    int [ContentType "application/pdf"] cfg = Ret None.
Proof.
  split.
  - apply (@pathlib_matches_six_types
             PosixPath [OtherAnnotation "doc"; ContentType "application/pdf"] cfg
             eq_refl).
    simpl. tauto.
  - apply (@pathlib_matches_six_types int [ContentType "application/pdf"] cfg
                                      eq_refl).
    simpl. intros [H|[H|[H|[H|[H|[H|[]]]]]]]; discriminate H.
Defined.

(** Each of the six path classes, with and without a [ContentType]. *)
Lemma pathlib_six_types_examples :
  Forall (fun path =>
            pathlib_prepare_pydantic_annotations
              path [ContentType "application/pdf"] cfg =
            Ret (Some (path, [FileSchema (Some "application/pdf")])) /\
            pathlib_prepare_pydantic_annotations path [] cfg =
            Ret (Some (path, [FileSchema None])))
         [PurePath; PurePosixPath; PureWindowsPath; Path; PosixPath; WindowsPath].
Proof.
  repeat constructor.
Qed.

(** ** Dispatch: results *)

Section DispatchFacts.

Variable engine_known_type : pyobj -> list annotation -> outcome prepared.
Variable config_dict : ConfigDict.

Lemma try_preparers_first_match
  (obj : pyobj) (annotations : list annotation)
  (before : list (resolver * Preparer)) :
  forall (name : resolver) (preparer : Preparer)
         (after : list (resolver * Preparer)) (calls : list resolver)
         (res : pyobj * list annotation),
    Forall (declines config_dict obj annotations) before ->
    preparer obj annotations config_dict = Ret (Some res) ->
    try_preparers config_dict (before ++ (name, preparer) :: after)
                  obj annotations calls =
    (calls ++ map fst before ++ [name], Ret (Some res)).
Proof.
  induction before as [|[n p] before IH];
    intros name preparer after calls res Hnone Hres; simpl.
  - now rewrite Hres.
  - inversion Hnone as [|x xs Hp Hrest]; subst.
    unfold declines in Hp. simpl in Hp. rewrite Hp.
    rewrite (IH name preparer after (calls ++ [n]) res Hrest Hres).
    now rewrite <- app_assoc.
Qed.

Lemma try_preparers_no_match
  (obj : pyobj) (annotations : list annotation)
  (preparers : list (resolver * Preparer)) :
  forall calls : list resolver,
    Forall (declines config_dict obj annotations) preparers ->
    try_preparers config_dict preparers obj annotations calls =
    (calls ++ map fst preparers, Ret None).
Proof.
  induction preparers as [|[n p] preparers IH]; intros calls Hnone; simpl.
  - now rewrite app_nil_r.
  - inversion Hnone as [|x xs Hp Hrest]; subst.
    unfold declines in Hp. simpl in Hp. rewrite Hp.
    rewrite (IH (calls ++ [n]) Hrest). now rewrite <- app_assoc.
Qed.

(** On a hashable object the method is the loop over the whole chain. *)
Lemma known_type_is_chain (obj : pyobj) (annotations : list annotation) :
  py_hashable obj = true ->
  _get_prepare_pydantic_annotations_for_known_type
    engine_known_type config_dict obj annotations =
  try_preparers config_dict (resolution_chain engine_known_type) obj annotations [].
Proof.
  intros Hhash.
  unfold _get_prepare_pydantic_annotations_for_known_type, hash.
  rewrite Hhash. reflexivity.
Qed.

End DispatchFacts.

(** C5. On a source object that [hash] rejects, the dispatch method returns
    [None]: it raises nothing and invokes no resolver. *)
Theorem unhashable_source_not_resolved
  (engine_known_type : pyobj -> list annotation -> outcome prepared)
  (config_dict : ConfigDict) (obj : pyobj) (annotations : list annotation) :
  py_hashable obj = false ->
  hash obj = Raise TypeError /\
  _get_prepare_pydantic_annotations_for_known_type
    engine_known_type config_dict obj annotations = ([], Ret None).
Proof.
  intros Hhash.
  unfold _get_prepare_pydantic_annotations_for_known_type, hash.
  rewrite Hhash. split; reflexivity.
Qed.

Lemma unhashable_source_not_resolved_witness :
  hash unhashable_list = Raise TypeError /\
  _get_prepare_pydantic_annotations_for_known_type
    engine_knows_nothing cfg unhashable_list [DType "float32"] = ([], Ret None).
Proof.
  apply (@unhashable_source_not_resolved
           engine_knows_nothing cfg unhashable_list [DType "float32"]).
  reflexivity.
Defined.

(** C6. The dispatch method checks hashability first.  On a hashable object
    it goes through the path handler
    [pathlib_prepare_pydantic_annotations], the engine's built-in
    resolution and the family handlers
    [numpy_prepare_pydantic_annotations],
    [torch_prepare_pydantic_annotations], [tf_prepare_pydantic_annotations],
    [pandas_prepare_pydantic_annotations], [pil_prepare_pydantic_annotations],
    in this order: when the resolvers before one all return [None] and that
    one returns a result, the method returns this result and has invoked
    exactly the resolvers up to it; when all return [None], the method
    returns [None]. *)
Theorem dispatch_first_match_wins
  (engine_known_type : pyobj -> list annotation -> outcome prepared)
  (config_dict : ConfigDict) (obj : pyobj) (annotations : list annotation) :
  (py_hashable obj = false ->
   _get_prepare_pydantic_annotations_for_known_type
     engine_known_type config_dict obj annotations = ([], Ret None))
  /\
  (py_hashable obj = true ->
   (forall before name preparer after res,
       [ (PathResolver, pathlib_prepare_pydantic_annotations);
         (EngineResolver,
          fun obj annotations _ => engine_known_type obj annotations);
         (NumpyResolver, numpy_prepare_pydantic_annotations);
         (TorchResolver, torch_prepare_pydantic_annotations);
         (TfResolver, tf_prepare_pydantic_annotations);
         (PandasResolver, pandas_prepare_pydantic_annotations);
         (PilResolver, pil_prepare_pydantic_annotations) ] = before ++ (name, preparer) :: after ->
       Forall (declines config_dict obj annotations) before ->
       preparer obj annotations config_dict = Ret (Some res) ->
       _get_prepare_pydantic_annotations_for_known_type
         engine_known_type config_dict obj annotations =
       (map fst before ++ [name], Ret (Some res))) /\
   (Forall (declines config_dict obj annotations)
       [ (PathResolver, pathlib_prepare_pydantic_annotations);
         (EngineResolver,
          fun obj annotations _ => engine_known_type obj annotations);
         (NumpyResolver, numpy_prepare_pydantic_annotations);
         (TorchResolver, torch_prepare_pydantic_annotations);
         (TfResolver, tf_prepare_pydantic_annotations);
         (PandasResolver, pandas_prepare_pydantic_annotations);
         (PilResolver, pil_prepare_pydantic_annotations) ] ->
    _get_prepare_pydantic_annotations_for_known_type
      engine_known_type config_dict obj annotations =
    ([ PathResolver; EngineResolver; NumpyResolver; TorchResolver; TfResolver;
       PandasResolver; PilResolver ], Ret None))).
Proof.
  split.
  - intros Hhash.
    unfold _get_prepare_pydantic_annotations_for_known_type, hash.
    now rewrite Hhash.
  - intros Hhash. split.
    + intros before name preparer after res Hchain Hnone Hres.
      rewrite (known_type_is_chain engine_known_type config_dict _ _ Hhash).
      unfold resolution_chain, CUSTOM_PREPARE_METHODS. rewrite Hchain.
      now rewrite (try_preparers_first_match _ _ _ _ Hnone Hres).
    + intros Hnone.
      rewrite (known_type_is_chain engine_known_type config_dict _ _ Hhash).
      unfold resolution_chain, CUSTOM_PREPARE_METHODS.
      now rewrite (try_preparers_no_match _ Hnone).
Qed.

(** [pd.DataFrame] is resolved by the dataframe handler after five resolvers
    have declined; [int] by none; a list is not hashable. *)
Lemma dispatch_first_match_wins_witness :
  _get_prepare_pydantic_annotations_for_known_type
    engine_knows_nothing cfg DataFrame [] =
  ([ PathResolver; EngineResolver; NumpyResolver; TorchResolver; TfResolver;
     PandasResolver ],
   Ret (Some (DataFrame, [DataframeSchema df_default])))
  /\
  _get_prepare_pydantic_annotations_for_known_type
    engine_knows_nothing cfg int [] =
  ([ PathResolver; EngineResolver; NumpyResolver; TorchResolver; TfResolver;
     PandasResolver; PilResolver ],
   Ret None)
  /\
  _get_prepare_pydantic_annotations_for_known_type
    engine_knows_nothing cfg unhashable_list [] = ([], Ret None).
Proof.
  split; [|split].
  - destruct (dispatch_first_match_wins engine_knows_nothing cfg DataFrame [])
      as [_ H].
    destruct (H eq_refl) as [Hfirst _].
    apply (Hfirst
             [ (PathResolver, pathlib_prepare_pydantic_annotations);
               (EngineResolver,
                fun obj annotations _ => engine_knows_nothing obj annotations);
               (NumpyResolver, numpy_prepare_pydantic_annotations);
               (TorchResolver, torch_prepare_pydantic_annotations);
               (TfResolver, tf_prepare_pydantic_annotations) ]
             PandasResolver pandas_prepare_pydantic_annotations
             [ (PilResolver, pil_prepare_pydantic_annotations) ]).
    + reflexivity.
    + repeat constructor.
    + reflexivity.
  - destruct (dispatch_first_match_wins engine_knows_nothing cfg int [])
      as [_ H].
    destruct (H eq_refl) as [_ Hnone].
    apply Hnone. repeat constructor.
  - destruct (dispatch_first_match_wins engine_knows_nothing cfg
                                        unhashable_list [])
      as [H _].
    apply H. reflexivity.
Defined.

(** The engine's own result comes before the family handlers, and the path
    handler before the engine. *)
Lemma dispatch_path_overrides_engine
  (engine_known_type : pyobj -> list annotation -> outcome prepared)
  (config_dict : ConfigDict) (obj : pyobj) (annotations : list annotation)
  (res : pyobj * list annotation) :
  py_hashable obj = true ->
  pathlib_prepare_pydantic_annotations obj annotations config_dict =
  Ret (Some res) ->
  _get_prepare_pydantic_annotations_for_known_type
    engine_known_type config_dict obj annotations =
  ([PathResolver], Ret (Some res)).
Proof.
  intros Hhash Hres.
  unfold _get_prepare_pydantic_annotations_for_known_type, hash.
  now rewrite Hhash, Hres.
Qed.

(** ** Further results

    The handlers in closed form: the loops resolved, the checks left as
    they are. *)

Lemma numpy_loop_outcome (l : list annotation) :
  forall st,
    (exists st', numpy_loop l st = Ret st') \/
    (exists cur other,
        In (DType other) l /\ cur <> other /\
        numpy_loop l st = Raise (ValueError (conflict_message cur other))).
Proof.
  induction l as [|a l IH]; intros st; [left; now exists st|].
  assert (Hnext : forall st',
             (exists st'', numpy_loop l st' = Ret st'') \/
             (exists cur other,
                 In (DType other) (a :: l) /\ cur <> other /\
                 numpy_loop l st' = Raise (ValueError (conflict_message cur other)))).
  { intros st'. destruct (IH st') as [H|[c [o [Ho [Hco Hrun]]]]]; [now left|].
    right. exists c, o. split; [now right|]. now split. }
  destruct a; simpl; try apply Hnext.
  destruct (np_dtype st) as [cur|]; [|apply Hnext].
  destruct (String.eqb_spec cur dtype) as [Heq|Hne]; simpl; [apply Hnext|].
  right. exists cur, dtype. split; [now left|]. now split.
Qed.

Lemma numpy_loop_unset_agree (l : list annotation) :
  (forall a b, In (DType a) l -> In (DType b) l -> a = b) ->
  forall sh acc,
    numpy_loop l (NumpyState None sh acc) =
    Ret (NumpyState (first_of as_dtype l) (orelse (last_of as_shape l) sh)
                    (acc ++ filter not_tensor_hint l)).
Proof.
  induction l as [|x l IH]; intros Hall sh acc.
  - simpl. now rewrite app_nil_r.
  - assert (Hl : forall a b, In (DType a) l -> In (DType b) l -> a = b)
      by (intros a b Ha Hb; apply Hall; now right).
    destruct x; simpl;
      try (rewrite (IH Hl); simpl; rewrite <- app_assoc; simpl;
           now destruct (last_of as_shape l)).
    + rewrite (IH Hl). now destruct (last_of as_shape l).
    + rewrite numpy_loop_agree.
      * now destruct (last_of as_shape l).
      * intros e He. apply Hall; [now right|now left].
Qed.

Lemma dtypes_agree_other (inferred : option string) (l : list annotation) :
  dtypes_agree inferred (other_annotations l) <-> dtypes_agree inferred l.
Proof.
  unfold dtypes_agree. split; intros [H1 H2]; split.
  - intros a b Ha Hb. apply H1; now apply In_DType_other_annotations.
  - intros d a Hd Ha. apply (H2 d a Hd). now apply In_DType_other_annotations.
  - intros a b Ha Hb. apply H1; now apply In_DType_other_annotations.
  - intros d a Hd Ha. apply (H2 d a Hd). now apply In_DType_other_annotations.
Qed.

Lemma numpy_loop_dtypes_agree (inferred : option string) (l : list annotation) :
  dtypes_agree inferred l ->
  forall sh acc,
    numpy_loop l (NumpyState inferred sh acc) =
    Ret (NumpyState (orelse inferred (first_of as_dtype l))
                    (orelse (last_of as_shape l) sh)
                    (acc ++ filter not_tensor_hint l)).
Proof.
  intros [Hpair Hinf] sh acc. destruct inferred as [d|].
  - apply numpy_loop_agree. intros e He. now apply (Hinf d).
  - now apply numpy_loop_unset_agree.
Qed.

Lemma numpy_loop_dtypes_disagree (inferred : option string) (l : list annotation)
  (sh : option (list Z)) (acc : list annotation) (st : numpy_state) :
  numpy_loop l (NumpyState inferred sh acc) = Ret st ->
  dtypes_agree inferred l.
Proof.
  intros Hrun. split.
  - intros a b Ha Hb. destruct (string_dec a b) as [Heq|Hne]; [exact Heq|].
    exfalso. destruct inferred as [d|].
    + assert (Hex : exists e, In (DType e) l /\ e <> d).
      { destruct (string_dec a d) as [Had|Had].
        - exists b. split; [exact Hb|congruence].
        - exists a. now split. }
      destruct (@numpy_loop_conflict l d Hex sh acc) as [o [_ [_ Hraise]]].
      congruence.
    + destruct (@numpy_loop_two_explicit l a b Ha Hb Hne sh acc)
        as [c [o [_ [_ [_ Hraise]]]]].
      congruence.
  - intros d a -> Ha. destruct (string_dec a d) as [Heq|Hne]; [exact Heq|].
    exfalso.
    destruct (@numpy_loop_conflict l d (ex_intro _ a (conj Ha Hne)) sh acc)
      as [o [_ [_ Hraise]]].
    congruence.
Qed.

Lemma numpy_prepare_closed (source : pyobj) (annotations : list annotation)
  (config : ConfigDict) :
  numpy_prepare_pydantic_annotations source annotations config =
  match module_startswith source "numpy" with
  | Raise e => Raise e
  | Ret false => Ret None
  | Ret true =>
      if is_ (get_origin source) np_ndarray then
        match numpy_element_dtype source with
        | Raise TypeError => Ret None
        | Raise e => Raise e
        | Ret dtype =>
            st <- numpy_loop (other_annotations annotations)
                             (NumpyState dtype None []) ;;
            Ret (Some (source,
                       TensorSchema "numpy-array" (np_dtype st) (np_shape st)
                       :: np_remaining st))
        end
      else Ret None
  end.
Proof.
  unfold numpy_prepare_pydantic_annotations.
  destruct (module_startswith source "numpy") as [[|]|e]; try reflexivity.
  simpl. now destruct (is_ (get_origin source) np_ndarray).
Qed.

(** X1. In the numeric-array family, when the explicit [DType] values agree
    with one another and with the inferred name, the handler returns the
    source type with one [TensorSchema]: its dtype is the inferred name, or
    else the explicit value, or else unset; its shape is the one of the
    highest-index [Shape]; the other annotations follow in their order. *)
Theorem numpy_result_when_dtypes_agree
  (source : pyobj) (annotations : list annotation) (config : ConfigDict)
  (inferred : option string) :
  numpy_family source ->
  numpy_element_dtype source = Ret inferred ->
  dtypes_agree inferred annotations ->
  numpy_prepare_pydantic_annotations source annotations config =
  Ret (Some (source,
             TensorSchema "numpy-array"
                          (orelse inferred (first_of as_dtype annotations))
                          (last_of as_shape (other_annotations annotations))
             :: filter not_tensor_hint (other_annotations annotations))).
Proof.
  intros [Hmod Horigin] Hinfer Hagree.
  rewrite numpy_prepare_closed, Hmod, Horigin, Hinfer.
  rewrite numpy_loop_dtypes_agree by now apply dtypes_agree_other.
  simpl. rewrite first_of_as_dtype_other.
  now destruct (last_of as_shape (other_annotations annotations)).
Qed.

(** Plain [np.ndarray] with two shapes and one dtype; the parametrized type
    with no explicit dtype. *)
Lemma numpy_result_when_dtypes_agree_witness :
  numpy_prepare_pydantic_annotations
    ndarray [Shape [1%Z]; OtherAnnotation "doc"; DType "int8"; Shape [2%Z]] cfg =
  Ret (Some (ndarray,
             [TensorSchema "numpy-array" (Some "int8") (Some [2%Z]);
              OtherAnnotation "doc"]))
  /\
  numpy_prepare_pydantic_annotations NDArray_float32 [] cfg =
  Ret (Some (NDArray_float32, [TensorSchema "numpy-array" (Some "float32") None])).
Proof.
  split.
  - apply (@numpy_result_when_dtypes_agree
             ndarray [Shape [1%Z]; OtherAnnotation "doc"; DType "int8"; Shape [2%Z]]
             cfg None).
    + split; reflexivity.
    + reflexivity.
    + split.
      * intros a b [Ha|[Ha|[Ha|[Ha|[]]]]] [Hb|[Hb|[Hb|[Hb|[]]]]];
          try discriminate. congruence.
      * discriminate.
  - apply (@numpy_result_when_dtypes_agree NDArray_float32 [] cfg (Some "float32")).
    + split; reflexivity.
    + reflexivity.
    + split; [intros a b []|intros d a _ []].
Defined.

(** X2. In the numeric-array family, once the element type is extracted, the
    handler returns a result exactly when the [DType] values agree; otherwise
    it raises the conflict error, and it never returns [None]. *)
Theorem numpy_resolves_iff_dtypes_agree
  (source : pyobj) (annotations : list annotation) (config : ConfigDict)
  (inferred : option string) :
  numpy_family source ->
  numpy_element_dtype source = Ret inferred ->
  ((exists res,
       numpy_prepare_pydantic_annotations source annotations config =
       Ret (Some res))
   <-> dtypes_agree inferred annotations)
  /\
  ((exists res,
       numpy_prepare_pydantic_annotations source annotations config =
       Ret (Some res))
   \/
   (exists cur other,
       In (DType other) annotations /\ cur <> other /\
       numpy_prepare_pydantic_annotations source annotations config =
       Raise (ValueError (conflict_message cur other)))).
Proof.
  intros [Hmod Horigin] Hinfer.
  rewrite numpy_prepare_closed, Hmod, Horigin, Hinfer.
  split.
  - split.
    + intros [res Hres]. apply dtypes_agree_other.
      destruct (numpy_loop (other_annotations annotations)
                           (NumpyState inferred None [])) as [st|e] eqn:Hrun;
        [|discriminate Hres].
      exact (numpy_loop_dtypes_disagree _ _ _ _ Hrun).
    + intros Hagree.
      rewrite numpy_loop_dtypes_agree by now apply dtypes_agree_other.
      eexists. reflexivity.
  - destruct (numpy_loop_outcome (other_annotations annotations)
                                 (NumpyState inferred None []))
      as [[st Hrun]|[c [o [Ho [Hco Hrun]]]]]; rewrite Hrun.
    + left. eexists. reflexivity.
    + right. exists c, o. rewrite In_DType_other_annotations in Ho.
      now repeat split.
Qed.

Lemma numpy_resolves_iff_dtypes_agree_witness :
  ((exists res,
       numpy_prepare_pydantic_annotations
         ndarray [DType "int8"; DType "int16"] cfg = Ret (Some res))
   <-> dtypes_agree None [DType "int8"; DType "int16"])
  /\
  ((exists res,
       numpy_prepare_pydantic_annotations
         ndarray [DType "int8"; DType "int16"] cfg = Ret (Some res))
   \/
   (exists cur other,
       In (DType other) [DType "int8"; DType "int16"] /\ cur <> other /\
       numpy_prepare_pydantic_annotations
         ndarray [DType "int8"; DType "int16"] cfg =
       Raise (ValueError (conflict_message cur other)))).
Proof.
  apply (@numpy_resolves_iff_dtypes_agree
           ndarray [DType "int8"; DType "int16"] cfg None).
  - split; reflexivity.
  - reflexivity.
Defined.

Lemma module_startswith_raise (source : pyobj) (p : string) (e : exn) :
  module_startswith source p = Raise e <->
  py_module source = ModuleNotStr e.
Proof.
  unfold module_startswith. destruct (py_module source); split;
    try discriminate.
  - intros H. now injection H as <-.
  - intros H. now injection H as <-.
Qed.

Lemma issubclass_raise (origin : option pyobj) (cls : string) (e : exn) :
  issubclass origin cls = Raise e <-> not_a_class origin /\ e = TypeError.
Proof.
  unfold issubclass, not_a_class. destruct origin as [o|].
  - destruct (py_mro o); split; try discriminate.
    + intros [H _]. discriminate H.
    + intros H. injection H as <-. now split.
    + intros [_ ->]. reflexivity.
  - split.
    + intros H. injection H as <-. now split.
    + intros [_ ->]. reflexivity.
Qed.

Lemma numpy_none_cases
  (source : pyobj) (annotations : list annotation) (config : ConfigDict) :
  numpy_prepare_pydantic_annotations source annotations config = Ret None <->
  module_startswith source "numpy" = Ret false \/
  (module_startswith source "numpy" = Ret true /\
   is_ (get_origin source) np_ndarray = false) \/
  (numpy_family source /\ numpy_element_dtype source = Raise TypeError).
Proof.
  rewrite numpy_prepare_closed. unfold numpy_family.
  destruct (module_startswith source "numpy") as [[|]|e].
  - destruct (is_ (get_origin source) np_ndarray).
    + destruct (numpy_element_dtype source) as [dt|e].
      * destruct (numpy_loop_outcome (other_annotations annotations)
                                     (NumpyState dt None []))
          as [[st Hrun]|[c [o [_ [_ Hrun]]]]]; rewrite Hrun; simpl;
          (split; [discriminate|]);
          intros [H|[[_ H]|[_ H]]]; discriminate H.
      * destruct e;
          try (split; [discriminate|];
               intros [H|[[_ H]|[_ H]]]; discriminate H).
        split; [|reflexivity]. intros _. right. right. now repeat split.
    + split; [|reflexivity]. intros _. right. left. now split.
  - split; [|reflexivity]. intros _. now left.
  - split; [discriminate|].
    intros [H|[[H _]|[[H _] _]]]; discriminate H.
Qed.

(** X3. The numeric-array handler returns [None] in three cases only: the
    module is not in the [numpy] namespace, the origin is not [np.ndarray],
    or the element-type extraction raises TypeError. *)
Theorem numpy_not_applicable_iff
  (source : pyobj) (annotations : list annotation) (config : ConfigDict) :
  numpy_prepare_pydantic_annotations source annotations config = Ret None <->
  module_startswith source "numpy" = Ret false \/
  (module_startswith source "numpy" = Ret true /\
   is_ (get_origin source) np_ndarray = false) \/
  (numpy_family source /\ numpy_element_dtype source = Raise TypeError).
Proof.
  apply numpy_none_cases.
Qed.

(** X4. When the numeric-array handler raises, the exception is the one of
    the [__module__] check, or the source type is in the family and the
    exception is one of the element-type extraction other than TypeError, or
    it is the conflict error of a [DType] annotation.  Once the module check
    has answered, the handler does not raise TypeError. *)
Theorem numpy_raises_only
  (source : pyobj) (annotations : list annotation) (config : ConfigDict)
  (e : exn) :
  numpy_prepare_pydantic_annotations source annotations config = Raise e ->
  (module_startswith source "numpy" = Raise e \/
   (numpy_family source /\ numpy_element_dtype source = Raise e /\
    e <> TypeError) \/
   (numpy_family source /\
    exists cur other,
      In (DType other) annotations /\ cur <> other /\
      e = ValueError (conflict_message cur other)))
  /\
  (forall b, module_startswith source "numpy" = Ret b -> e <> TypeError).
Proof.
  rewrite numpy_prepare_closed. unfold numpy_family.
  destruct (module_startswith source "numpy") as [[|]|e0] eqn:Hmod;
    try discriminate.
  - destruct (is_ (get_origin source) np_ndarray) eqn:Horigin;
      try discriminate.
    destruct (numpy_element_dtype source) as [dt|e0] eqn:Hinfer.
    + destruct (numpy_loop_outcome (other_annotations annotations)
                                   (NumpyState dt None []))
        as [[st Hrun]|[c [o [Ho [Hco Hrun]]]]]; rewrite Hrun; simpl;
        [discriminate|].
      intros H. injection H as <-. split; [|intros b _; discriminate].
      right. right. split; [now split|].
      exists c, o. rewrite In_DType_other_annotations in Ho. now repeat split.
    + destruct e0; try discriminate;
        (intros H; injection H as <-; split; [|intros b _; discriminate]);
        right; left; repeat split; discriminate.
  - intros H. injection H as <-. split; [now left|].
    intros b Hb. discriminate Hb.
Qed.

(** The conflict of [np.ndarray[Any, np.dtype[np.float32]]] with
    [DType("float64")]. *)
Lemma numpy_raises_only_witness :
  (module_startswith NDArray_float32 "numpy" =
   Raise (ValueError (conflict_message "float32" "float64")) \/
   (numpy_family NDArray_float32 /\
    numpy_element_dtype NDArray_float32 =
    Raise (ValueError (conflict_message "float32" "float64")) /\
    ValueError (conflict_message "float32" "float64") <> TypeError) \/
   (numpy_family NDArray_float32 /\
    exists cur other,
      In (DType other) [DType "float64"] /\ cur <> other /\
      ValueError (conflict_message "float32" "float64") =
      ValueError (conflict_message cur other)))
  /\
  (forall b, module_startswith NDArray_float32 "numpy" = Ret b ->
             ValueError (conflict_message "float32" "float64") <> TypeError).
Proof.
  apply (@numpy_raises_only NDArray_float32 [DType "float64"] cfg).
  reflexivity.
Defined.

Lemma torch_prepare_closed (source : pyobj) (annotations : list annotation)
  (config : ConfigDict) :
  torch_prepare_pydantic_annotations source annotations config =
  match module_startswith source "torch" with
  | Raise e => Raise e
  | Ret false => Ret None
  | Ret true =>
      match issubclass (get_origin source) torch_Tensor with
      | Raise e => Raise e
      | Ret false => Ret None
      | Ret true =>
          Ret (Some (source,
                     TensorSchema "torch-tensor" (first_of as_dtype annotations)
                                  (first_of as_shape annotations)
                     :: filter not_tensor_hint (other_annotations annotations)))
      end
  end.
Proof.
  unfold torch_prepare_pydantic_annotations.
  destruct (module_startswith source "torch") as [[|]|e]; try reflexivity.
  simpl. destruct (issubclass (get_origin source) torch_Tensor) as [[|]|e];
    try reflexivity.
  simpl.
  change (snd (collect_known_metadata annotations))
    with (other_annotations annotations).
  rewrite tensor_loop_spec. simpl.
  now rewrite first_of_as_dtype_other, first_of_as_shape_other.
Qed.

Lemma tf_prepare_closed (source : pyobj) (annotations : list annotation)
  (config : ConfigDict) :
  tf_prepare_pydantic_annotations source annotations config =
  match module_startswith source "tensorflow" with
  | Raise e => Raise e
  | Ret false => Ret None
  | Ret true =>
      match issubclass (get_origin source) tf_Tensor with
      | Raise e => Raise e
      | Ret false => Ret None
      | Ret true =>
          Ret (Some (source,
                     TensorSchema "tf-tensor" (first_of as_dtype annotations)
                                  (first_of as_shape annotations)
                     :: filter not_tensor_hint (other_annotations annotations)))
      end
  end.
Proof.
  unfold tf_prepare_pydantic_annotations.
  destruct (module_startswith source "tensorflow") as [[|]|e]; try reflexivity.
  simpl. destruct (issubclass (get_origin source) tf_Tensor) as [[|]|e];
    try reflexivity.
  simpl.
  change (snd (collect_known_metadata annotations))
    with (other_annotations annotations).
  rewrite tensor_loop_spec. simpl.
  now rewrite first_of_as_dtype_other, first_of_as_shape_other.
Qed.

Lemma pandas_prepare_closed (source : pyobj) (annotations : list annotation)
  (config : ConfigDict) :
  pandas_prepare_pydantic_annotations source annotations config =
  match module_startswith source "pandas" with
  | Raise e => Raise e
  | Ret false => Ret None
  | Ret true =>
      match issubclass (get_origin source) pd_DataFrame with
      | Raise e => Raise e
      | Ret false => Ret None
      | Ret true =>
          Ret (Some (origin_or_source source,
                     if existsb is_DataframeSchema annotations
                     then other_annotations annotations
                     else DataframeSchema df_default
                          :: other_annotations annotations))
      end
  end.
Proof.
  unfold pandas_prepare_pydantic_annotations, origin_or_source.
  destruct (module_startswith source "pandas") as [[|]|e]; try reflexivity.
  simpl.
  destruct (issubclass (get_origin source) pd_DataFrame) as [[|]|e] eqn:Hsub;
    try reflexivity.
  simpl. destruct (get_origin source) as [o|]; [|discriminate Hsub].
  change (snd (collect_known_metadata annotations))
    with (other_annotations annotations).
  rewrite existsb_other_annotations by reflexivity.
  now destruct (existsb is_DataframeSchema annotations).
Qed.

Lemma pil_prepare_closed (source : pyobj) (annotations : list annotation)
  (config : ConfigDict) :
  pil_prepare_pydantic_annotations source annotations config =
  match module_startswith source "PIL." with
  | Raise e => Raise e
  | Ret false => Ret None
  | Ret true =>
      match issubclass (Some (origin_or_source source)) Image_Image with
      | Raise e => Raise e
      | Ret false => Ret None
      | Ret true =>
          Ret (Some (origin_or_source source,
                     PILImageEncoder :: other_annotations annotations))
      end
  end.
Proof.
  unfold pil_prepare_pydantic_annotations, origin_or_source.
  destruct (module_startswith source "PIL.") as [[|]|e]; try reflexivity.
  rewrite bind_ret. cbv beta iota delta [negb].
  destruct (issubclass
              (Some match get_origin source with
                    | Some o => o
                    | None => source
                    end) Image_Image) as [[|]|e]; reflexivity.
Qed.

Lemma pathlib_prepare_closed (source : pyobj) (annotations : list annotation)
  (config : ConfigDict) :
  pathlib_prepare_pydantic_annotations source annotations config =
  if py_hashable source then
    if existsb (String.eqb (py_id source)) path_types then
      Ret (Some (source,
                 FileSchema (first_of as_content_type annotations)
                 :: filter not_content_type (other_annotations annotations)))
    else Ret None
  else Raise TypeError.
Proof.
  unfold pathlib_prepare_pydantic_annotations, hash.
  destruct (py_hashable source); [|reflexivity].
  rewrite bind_ret.
  destruct (existsb (String.eqb (py_id source)) path_types); [|reflexivity].
  cbv beta iota delta [negb].
  change (snd (collect_known_metadata annotations))
    with (other_annotations annotations).
  rewrite path_loop_spec, bind_ret.
  cbv beta iota delta [ps_content_type ps_remaining].
  now rewrite first_of_as_content_type_other.
Qed.

Lemma two_checks_raise (source : pyobj) (p : string) (origin : option pyobj)
  (cls : string) (res : prepared) (e : exn) :
  match module_startswith source p with
  | Raise e0 => Raise e0
  | Ret false => Ret None
  | Ret true =>
      match issubclass origin cls with
      | Raise e1 => Raise e1
      | Ret false => Ret None
      | Ret true => Ret res
      end
  end = Raise e <->
  module_startswith source p = Raise e \/
  (module_startswith source p = Ret true /\ not_a_class origin /\
   e = TypeError).
Proof.
  pose proof (issubclass_raise origin cls) as HI.
  destruct (module_startswith source p) as [[|]|e0].
  - destruct (issubclass origin cls) as [[|]|e1]; split;
      try discriminate.
    + intros [H|[_ [H He]]]; [discriminate H|].
      assert (X : @Ret bool true = Raise e) by (apply HI; now split).
      discriminate X.
    + intros [H|[_ [H He]]]; [discriminate H|].
      assert (X : @Ret bool false = Raise e) by (apply HI; now split).
      discriminate X.
    + intros H. injection H as <-. right.
      destruct (proj1 (HI e1) eq_refl) as [Hn He]. now repeat split.
    + intros [H|[_ [H He]]]; [discriminate H|].
      assert (X : @Raise bool e1 = Raise e) by (apply HI; now split).
      now injection X as ->.
  - split; [discriminate|].
    intros [H|[H _]]; discriminate H.
  - split.
    + intros H. injection H as <-. now left.
    + intros [H|[H _]]; [|discriminate H]. now injection H as <-.
Qed.

(** X5. The torch, tensorflow, pandas and PIL handlers raise in two cases
    only: the [__module__] check raises, and its exception goes through; or
    the module is in the handler's namespace and the origin (for PIL: the
    origin, or the source type when it has none) is not a class, and
    [issubclass] raises TypeError.  The deletions of the reverse scan never
    go out of range. *)
Theorem subclass_handlers_raise_iff
  (source : pyobj) (annotations : list annotation) (config : ConfigDict)
  (e : exn) :
  (torch_prepare_pydantic_annotations source annotations config = Raise e <->
   module_startswith source "torch" = Raise e \/
   (module_startswith source "torch" = Ret true /\
    not_a_class (get_origin source) /\ e = TypeError))
  /\
  (tf_prepare_pydantic_annotations source annotations config = Raise e <->
   module_startswith source "tensorflow" = Raise e \/
   (module_startswith source "tensorflow" = Ret true /\
    not_a_class (get_origin source) /\ e = TypeError))
  /\
  (pandas_prepare_pydantic_annotations source annotations config = Raise e <->
   module_startswith source "pandas" = Raise e \/
   (module_startswith source "pandas" = Ret true /\
    not_a_class (get_origin source) /\ e = TypeError))
  /\
  (pil_prepare_pydantic_annotations source annotations config = Raise e <->
   module_startswith source "PIL." = Raise e \/
   (module_startswith source "PIL." = Ret true /\
    not_a_class (Some (origin_or_source source)) /\ e = TypeError)).
Proof.
  rewrite torch_prepare_closed, tf_prepare_closed, pandas_prepare_closed,
    pil_prepare_closed.
  repeat split; apply two_checks_raise.
Qed.

(** The exception of the module check goes through as it is:
    AttributeError for a [__module__] that is [None], TypeError for one that
    holds [bytes]. *)
Lemma module_check_exception_examples :
  numpy_prepare_pydantic_annotations bound_method [] cfg = Raise AttributeError /\
  torch_prepare_pydantic_annotations bytes_module [] cfg = Raise TypeError /\
  pil_prepare_pydantic_annotations bytes_module [] cfg = Raise TypeError.
Proof.
  repeat split.
Qed.

(** X6. The path handler raises only on a source type that [hash] rejects,
    and then TypeError; on a hashable one it returns, whatever the
    annotations. *)
Theorem pathlib_raises_iff
  (source : pyobj) (annotations : list annotation) (config : ConfigDict)
  (e : exn) :
  pathlib_prepare_pydantic_annotations source annotations config = Raise e <->
  py_hashable source = false /\ e = TypeError.
Proof.
  rewrite pathlib_prepare_closed.
  destruct (py_hashable source).
  - destruct (existsb (String.eqb (py_id source)) path_types); split;
      try discriminate; intros [H _]; discriminate H.
  - split.
    + intros H. injection H as <-. now split.
    + intros [_ ->]. reflexivity.
Qed.

(** X7. Whether a handler applies depends on the source type only: it
    returns [None] for one list of annotations and configuration exactly
    when it does for any other. *)
Theorem applicability_ignores_annotations
  (source : pyobj) (annotations annotations' : list annotation)
  (config config' : ConfigDict) :
  Forall (fun preparer : Preparer =>
            preparer source annotations config = Ret None <->
            preparer source annotations' config' = Ret None)
         [ pathlib_prepare_pydantic_annotations;
           numpy_prepare_pydantic_annotations;
           torch_prepare_pydantic_annotations;
           tf_prepare_pydantic_annotations;
           pandas_prepare_pydantic_annotations;
           pil_prepare_pydantic_annotations ].
Proof.
  repeat apply Forall_cons; try apply Forall_nil.
  - rewrite !pathlib_prepare_closed.
    destruct (py_hashable source); [|tauto].
    destruct (existsb (String.eqb (py_id source)) path_types); [|tauto].
    split; intros H; discriminate H.
  - rewrite !numpy_none_cases. tauto.
  - rewrite !torch_prepare_closed.
    destruct (module_startswith source "torch") as [[|]|e0]; try tauto.
    destruct (issubclass (get_origin source) torch_Tensor) as [[|]|e1];
      try tauto.
    split; intros H; discriminate H.
  - rewrite !tf_prepare_closed.
    destruct (module_startswith source "tensorflow") as [[|]|e0]; try tauto.
    destruct (issubclass (get_origin source) tf_Tensor) as [[|]|e1];
      try tauto.
    split; intros H; discriminate H.
  - rewrite !pandas_prepare_closed.
    destruct (module_startswith source "pandas") as [[|]|e0]; try tauto.
    destruct (issubclass (get_origin source) pd_DataFrame) as [[|]|e1];
      try tauto.
    split; intros H; discriminate H.
  - rewrite !pil_prepare_closed.
    destruct (module_startswith source "PIL.") as [[|]|e0]; try tauto.
    destruct (issubclass (Some (origin_or_source source)) Image_Image)
      as [[|]|e1]; try tauto.
    split; intros H; discriminate H.
Qed.

(** X8. For a source type matched by the image handler, the result is the
    origin of the source type (the source type itself when it has none) and
    [PILImageEncoder()] in front of the annotations; apart from the metadata
    of the engine every input annotation, [Shape], [DType] and [ContentType]
    included, is still there. *)
Theorem pil_prepends_encoder
  (source : pyobj) (annotations : list annotation) (config : ConfigDict) :
  pil_family source ->
  pil_prepare_pydantic_annotations source annotations config =
  Ret (Some (origin_or_source source,
             PILImageEncoder :: other_annotations annotations))
  /\
  (get_origin source = None -> origin_or_source source = source)
  /\
  (forall a, In a annotations -> is_known a = false ->
             In a (PILImageEncoder :: other_annotations annotations)).
Proof.
  intros [Hmod Hsub]. rewrite pil_prepare_closed, Hmod, Hsub.
  split; [reflexivity|]. split.
  - unfold origin_or_source. now intros ->.
  - intros a Ha Hk. right. now apply In_other_annotations.
Qed.

Lemma pil_prepends_encoder_witness :
  pil_prepare_pydantic_annotations
    PILImage [Shape [2%Z]; KnownMetadata "gt" 0%Z; ContentType "image/png"] cfg =
  Ret (Some (PILImage,
             [PILImageEncoder; Shape [2%Z]; ContentType "image/png"])).
Proof.
  apply (@pil_prepends_encoder
           PILImage [Shape [2%Z]; KnownMetadata "gt" 0%Z; ContentType "image/png"]
           cfg).
  split; reflexivity.
Defined.

(** ** Namespaces *)

Lemma prefix_comparable (p : string) :
  forall q m,
    prefix p m = true -> prefix q m = true ->
    prefix p q = true \/ prefix q p = true.
Proof.
  induction p as [|a p IH]; intros q m Hp Hq.
  - left. now destruct q.
  - destruct q as [|b q]; [right; reflexivity|].
    destruct m as [|c m]; [discriminate Hp|].
    simpl in Hp, Hq.
    destruct (Ascii.ascii_dec a c) as [->|]; [|discriminate Hp].
    destruct (Ascii.ascii_dec b c) as [->|]; [|discriminate Hq].
    simpl. destruct (Ascii.ascii_dec c c) as [_|Hc]; [|now elim Hc].
    exact (IH q m Hp Hq).
Qed.

Lemma module_startswith_true (source : pyobj) (p : string) :
  prefix p "" = false ->
  module_startswith source p = Ret true ->
  exists m, py_module source = Module m /\ prefix p m = true.
Proof.
  unfold module_startswith. intros Hp H.
  destruct (py_module source) as [| |m]; try discriminate.
  - rewrite Hp in H. discriminate H.
  - exists m. split; [reflexivity|]. now injection H.
Qed.

Lemma custom_preparer_cases (name : resolver) (preparer : Preparer) :
  In (name, preparer) CUSTOM_PREPARE_METHODS ->
  (name = NumpyResolver /\ preparer = numpy_prepare_pydantic_annotations) \/
  (name = TorchResolver /\ preparer = torch_prepare_pydantic_annotations) \/
  (name = TfResolver /\ preparer = tf_prepare_pydantic_annotations) \/
  (name = PandasResolver /\ preparer = pandas_prepare_pydantic_annotations) \/
  (name = PilResolver /\ preparer = pil_prepare_pydantic_annotations).
Proof.
  intros [E|[E|[E|[E|[E|[]]]]]]; injection E as <- <-; tauto.
Qed.

(** A family handler that does not find its namespace returns [None]. *)
Lemma custom_preparer_other_namespace
  (name : resolver) (preparer : Preparer) (source : pyobj)
  (annotations : list annotation) (config : ConfigDict) :
  In (name, preparer) CUSTOM_PREPARE_METHODS ->
  module_startswith source (namespace_of name) = Ret false ->
  preparer source annotations config = Ret None.
Proof.
  intros Hin Hmod.
  destruct (custom_preparer_cases Hin)
    as [[-> ->]|[[-> ->]|[[-> ->]|[[-> ->]|[-> ->]]]]]; simpl in Hmod.
  - now rewrite numpy_prepare_closed, Hmod.
  - now rewrite torch_prepare_closed, Hmod.
  - now rewrite tf_prepare_closed, Hmod.
  - now rewrite pandas_prepare_closed, Hmod.
  - now rewrite pil_prepare_closed, Hmod.
Qed.

(** A family handler that returns or raises anything but [None] on a module
    that is a string has found its namespace. *)
Lemma custom_preparer_namespace
  (name : resolver) (preparer : Preparer) (source : pyobj)
  (annotations : list annotation) (config : ConfigDict)
  (res : pyobj * list annotation) :
  In (name, preparer) CUSTOM_PREPARE_METHODS ->
  preparer source annotations config = Ret (Some res) ->
  exists m, py_module source = Module m /\ prefix (namespace_of name) m = true.
Proof.
  intros Hin Hres.
  assert (Hempty : prefix (namespace_of name) "" = false).
  { destruct (custom_preparer_cases Hin)
      as [[-> _]|[[-> _]|[[-> _]|[[-> _]|[-> _]]]]]; reflexivity. }
  apply module_startswith_true; [exact Hempty|].
  destruct (module_startswith source (namespace_of name)) as [[|]|e] eqn:Hmod;
    [reflexivity| |].
  - rewrite (@custom_preparer_other_namespace _ _ _ annotations config Hin Hmod) in Hres.
    discriminate Hres.
  - exfalso.
    destruct (custom_preparer_cases Hin)
      as [[-> ->]|[[-> ->]|[[-> ->]|[[-> ->]|[-> ->]]]]]; simpl in Hmod.
    + rewrite numpy_prepare_closed, Hmod in Hres. discriminate Hres.
    + rewrite torch_prepare_closed, Hmod in Hres. discriminate Hres.
    + rewrite tf_prepare_closed, Hmod in Hres. discriminate Hres.
    + rewrite pandas_prepare_closed, Hmod in Hres. discriminate Hres.
    + rewrite pil_prepare_closed, Hmod in Hres. discriminate Hres.
Qed.

(** Two family handlers look for namespaces of which none starts with the
    other. *)
Lemma namespaces_apart (n1 n2 : resolver) (h1 h2 : Preparer) :
  In (n1, h1) CUSTOM_PREPARE_METHODS ->
  In (n2, h2) CUSTOM_PREPARE_METHODS ->
  prefix (namespace_of n1) (namespace_of n2) = true \/
  prefix (namespace_of n2) (namespace_of n1) = true ->
  n1 = n2.
Proof.
  intros Hin1 Hin2 Hcmp.
  destruct (custom_preparer_cases Hin1)
    as [[-> _]|[[-> _]|[[-> _]|[[-> _]|[-> _]]]]];
    destruct (custom_preparer_cases Hin2)
      as [[-> _]|[[-> _]|[[-> _]|[[-> _]|[-> _]]]]];
    try reflexivity;
    destruct Hcmp as [X|X]; vm_compute in X; discriminate X.
Qed.

(** X9. No source type is resolved by two family handlers: when two entries
    of [CUSTOM_PREPARE_METHODS] both return a result for one source type,
    whatever the annotations, they are the same entry. *)
Theorem family_handlers_exclusive
  (source : pyobj) (annotations annotations' : list annotation)
  (config config' : ConfigDict)
  (n1 n2 : resolver) (h1 h2 : Preparer) (r1 r2 : pyobj * list annotation) :
  In (n1, h1) CUSTOM_PREPARE_METHODS ->
  In (n2, h2) CUSTOM_PREPARE_METHODS ->
  h1 source annotations config = Ret (Some r1) ->
  h2 source annotations' config' = Ret (Some r2) ->
  n1 = n2 /\ h1 = h2.
Proof.
  intros Hin1 Hin2 H1 H2.
  destruct (@custom_preparer_namespace _ _ _ _ _ _ Hin1 H1) as [m1 [Hm1 Hp1]].
  destruct (@custom_preparer_namespace _ _ _ _ _ _ Hin2 H2) as [m2 [Hm2 Hp2]].
  assert (m2 = m1) by congruence. subst m2.
  assert (Hn : n1 = n2)
    by (apply (@namespaces_apart _ _ _ _ Hin1 Hin2);
        exact (@prefix_comparable _ _ _ Hp1 Hp2)).
  split; [exact Hn|]. subst n2.
  destruct (custom_preparer_cases Hin1)
    as [[E1 ->]|[[E1 ->]|[[E1 ->]|[[E1 ->]|[E1 ->]]]]];
    destruct (custom_preparer_cases Hin2)
      as [[E2 ->]|[[E2 ->]|[[E2 ->]|[[E2 ->]|[E2 ->]]]]];
    try reflexivity; congruence.
Qed.

Lemma family_handlers_exclusive_witness :
  TorchResolver = TorchResolver /\
  torch_prepare_pydantic_annotations = torch_prepare_pydantic_annotations.
Proof.
  apply (@family_handlers_exclusive
           Tensor [DType "float32"] [] cfg cfg
           TorchResolver TorchResolver
           torch_prepare_pydantic_annotations torch_prepare_pydantic_annotations
           (Tensor, [TensorSchema "torch-tensor" (Some "float32") None])
           (Tensor, [TensorSchema "torch-tensor" None None])).
  - simpl. tauto.
  - simpl. tauto.
  - reflexivity.
  - reflexivity.
Defined.

(** ** Dispatch: errors and routing *)

Lemma try_preparers_first_raise
  (config_dict : ConfigDict) (obj : pyobj) (annotations : list annotation)
  (before : list (resolver * Preparer)) :
  forall (name : resolver) (preparer : Preparer)
         (after : list (resolver * Preparer)) (calls : list resolver) (e : exn),
    Forall (declines config_dict obj annotations) before ->
    preparer obj annotations config_dict = Raise e ->
    try_preparers config_dict (before ++ (name, preparer) :: after)
                  obj annotations calls =
    (calls ++ map fst before ++ [name], Raise e).
Proof.
  induction before as [|[n p] before IH];
    intros name preparer after calls e Hnone Hraise; simpl.
  - now rewrite Hraise.
  - inversion Hnone as [|x xs Hp Hrest]; subst.
    unfold declines in Hp. simpl in Hp. rewrite Hp.
    rewrite (IH name preparer after (calls ++ [n]) e Hrest Hraise).
    now rewrite <- app_assoc.
Qed.

Lemma try_preparers_only_candidate
  (config_dict : ConfigDict) (obj : pyobj) (annotations : list annotation)
  (before : list (resolver * Preparer)) :
  forall (name : resolver) (preparer : Preparer)
         (after : list (resolver * Preparer)) (calls : list resolver),
    Forall (declines config_dict obj annotations) before ->
    Forall (declines config_dict obj annotations) after ->
    snd (try_preparers config_dict (before ++ (name, preparer) :: after)
                       obj annotations calls) =
    preparer obj annotations config_dict.
Proof.
  induction before as [|[n p] before IH];
    intros name preparer after calls Hbefore Hafter; simpl.
  - destruct (preparer obj annotations config_dict) as [[res|]|e];
      try reflexivity.
    now rewrite (try_preparers_no_match _ Hafter).
  - inversion Hbefore as [|x xs Hp Hrest]; subst.
    unfold declines in Hp. simpl in Hp. rewrite Hp.
    exact (IH name preparer after (calls ++ [n]) Hrest Hafter).
Qed.

Lemma pathlib_declines (source : pyobj) (annotations : list annotation)
  (config : ConfigDict) :
  py_hashable source = true ->
  ~ In (py_id source) path_types ->
  pathlib_prepare_pydantic_annotations source annotations config = Ret None.
Proof.
  intros Hhash Hnot. rewrite pathlib_prepare_closed, Hhash.
  destruct (existsb (String.eqb (py_id source)) path_types) eqn:Hex;
    [|reflexivity].
  exfalso. apply Hnot. now apply (existsb_eqb_In (py_id source) path_types).
Qed.

(** X10. When the resolvers before one all return [None] and that one
    raises, the dispatch method raises the same exception and invokes no
    resolver after it. *)
Theorem dispatch_propagates_first_error
  (engine_known_type : pyobj -> list annotation -> outcome prepared)
  (config_dict : ConfigDict) (obj : pyobj) (annotations : list annotation)
  (before after : list (resolver * Preparer)) (name : resolver)
  (preparer : Preparer) (e : exn) :
  py_hashable obj = true ->
  resolution_chain engine_known_type = before ++ (name, preparer) :: after ->
  Forall (declines config_dict obj annotations) before ->
  preparer obj annotations config_dict = Raise e ->
  _get_prepare_pydantic_annotations_for_known_type
    engine_known_type config_dict obj annotations =
  (map fst before ++ [name], Raise e).
Proof.
  intros Hhash Hchain Hnone Hraise.
  rewrite (known_type_is_chain engine_known_type config_dict _ _ Hhash).
  rewrite Hchain.
  now rewrite (try_preparers_first_raise _ _ _ _ Hnone Hraise).
Qed.

(** The conflict of the numeric-array handler reaches the caller; the
    handlers after it are not invoked. *)
Lemma dispatch_propagates_first_error_witness :
  _get_prepare_pydantic_annotations_for_known_type
    engine_knows_nothing cfg NDArray_float32 [DType "float64"] =
  ([PathResolver; EngineResolver; NumpyResolver],
   Raise (ValueError (conflict_message "float32" "float64"))).
Proof.
  apply (@dispatch_propagates_first_error
           engine_knows_nothing cfg NDArray_float32 [DType "float64"]
           [ (PathResolver, pathlib_prepare_pydantic_annotations);
             (EngineResolver,
              fun obj annotations _ => engine_knows_nothing obj annotations) ]
           [ (TorchResolver, torch_prepare_pydantic_annotations);
             (TfResolver, tf_prepare_pydantic_annotations);
             (PandasResolver, pandas_prepare_pydantic_annotations);
             (PilResolver, pil_prepare_pydantic_annotations) ]
           NumpyResolver numpy_prepare_pydantic_annotations).
  - reflexivity.
  - reflexivity.
  - repeat constructor.
  - reflexivity.
Defined.

(** X11. A hashable path type is resolved by the path handler whatever the
    engine's built-in resolution would do: the engine and the family
    handlers are not invoked. *)
Theorem dispatch_path_before_engine
  (engine_known_type : pyobj -> list annotation -> outcome prepared)
  (config_dict : ConfigDict) (obj : pyobj) (annotations : list annotation) :
  py_hashable obj = true ->
  In (py_id obj) path_types ->
  _get_prepare_pydantic_annotations_for_known_type
    engine_known_type config_dict obj annotations =
  ([PathResolver],
   Ret (Some (obj,
              FileSchema (first_of as_content_type annotations)
              :: filter not_content_type (other_annotations annotations)))).
Proof.
  intros Hhash Hin.
  apply dispatch_path_overrides_engine; [exact Hhash|].
  rewrite pathlib_prepare_closed, Hhash.
  apply (existsb_eqb_In (py_id obj) path_types) in Hin. now rewrite Hin.
Qed.

(** An engine that would resolve every type does not get to see [Path]. *)
Lemma dispatch_path_before_engine_witness :
  _get_prepare_pydantic_annotations_for_known_type
    (fun obj annotations => Ret (Some (obj, annotations))) cfg
    Path [ContentType "text/csv"; OtherAnnotation "doc"] =
  ([PathResolver],
   Ret (Some (Path, [FileSchema (Some "text/csv"); OtherAnnotation "doc"]))).
Proof.
  apply (@dispatch_path_before_engine
           (fun obj annotations => Ret (Some (obj, annotations))) cfg
           Path [ContentType "text/csv"; OtherAnnotation "doc"]).
  - reflexivity.
  - simpl. tauto.
Defined.

Lemma other_namespaces_decline
  (config_dict : ConfigDict) (obj : pyobj) (annotations : list annotation)
  (name : resolver) (preparer : Preparer) (m : string) :
  In (name, preparer) CUSTOM_PREPARE_METHODS ->
  py_module obj = Module m ->
  prefix (namespace_of name) m = true ->
  forall name' preparer',
    In (name', preparer') CUSTOM_PREPARE_METHODS ->
    name' <> name ->
    declines config_dict obj annotations (name', preparer').
Proof.
  intros Hin Hm Hp name' preparer' Hin' Hne.
  unfold declines. simpl.
  apply (@custom_preparer_other_namespace name' preparer' obj annotations
                                          config_dict Hin').
  unfold module_startswith. rewrite Hm.
  destruct (prefix (namespace_of name') m) eqn:Hp'; [|reflexivity].
  exfalso. apply Hne.
  apply (@namespaces_apart _ _ _ _ Hin' Hin).
  exact (@prefix_comparable _ _ _ Hp' Hp).
Qed.

(** X12. For a hashable object that is no path type and that the engine
    does not know, the outcome of the dispatch method is the outcome of the
    one family handler whose namespace starts the object's [__module__]; when
    no namespace does (or there is no [__module__]), it is [None] and the
    seven resolvers have all been invoked. *)
Theorem dispatch_routes_by_namespace
  (engine_known_type : pyobj -> list annotation -> outcome prepared)
  (config_dict : ConfigDict) (obj : pyobj) (annotations : list annotation) :
  py_hashable obj = true ->
  ~ In (py_id obj) path_types ->
  engine_known_type obj annotations = Ret None ->
  (forall name preparer,
      In (name, preparer) CUSTOM_PREPARE_METHODS ->
      module_startswith obj (namespace_of name) = Ret true ->
      snd (_get_prepare_pydantic_annotations_for_known_type
             engine_known_type config_dict obj annotations) =
      preparer obj annotations config_dict)
  /\
  ((forall name preparer,
       In (name, preparer) CUSTOM_PREPARE_METHODS ->
       module_startswith obj (namespace_of name) = Ret false) ->
   _get_prepare_pydantic_annotations_for_known_type
     engine_known_type config_dict obj annotations =
   ([ PathResolver; EngineResolver; NumpyResolver; TorchResolver; TfResolver;
      PandasResolver; PilResolver ], Ret None)).
Proof.
  intros Hhash Hnot Hengine.
  rewrite (known_type_is_chain engine_known_type config_dict _ _ Hhash).
  assert (Hpath : declines config_dict obj annotations
                           (PathResolver, pathlib_prepare_pydantic_annotations))
    by (apply pathlib_declines; assumption).
  assert (Heng : declines config_dict obj annotations
                          (EngineResolver,
                           fun o a (_ : ConfigDict) => engine_known_type o a))
    by exact Hengine.
  split.
  - intros name preparer Hin Hmod.
    destruct (@module_startswith_true obj (namespace_of name)) as [m [Hm Hp]];
      [|exact Hmod|].
    { destruct (custom_preparer_cases Hin)
        as [[-> _]|[[-> _]|[[-> _]|[[-> _]|[-> _]]]]]; reflexivity. }
    pose proof (@other_namespaces_decline config_dict obj annotations
                                          name preparer m Hin Hm Hp) as Hothers.
    assert (Hd : forall n' p',
               In (n', p') CUSTOM_PREPARE_METHODS -> n' <> name ->
               declines config_dict obj annotations (n', p'))
      by exact Hothers.
    unfold resolution_chain.
    destruct (custom_preparer_cases Hin)
      as [[-> ->]|[[-> ->]|[[-> ->]|[[-> ->]|[-> ->]]]]].
    + apply (@try_preparers_only_candidate config_dict obj annotations
               [ (PathResolver, pathlib_prepare_pydantic_annotations);
                 (EngineResolver, fun o a _ => engine_known_type o a) ]).
      * repeat constructor; assumption.
      * repeat constructor; apply Hd; simpl; try tauto; discriminate.
    + apply (@try_preparers_only_candidate config_dict obj annotations
               [ (PathResolver, pathlib_prepare_pydantic_annotations);
                 (EngineResolver, fun o a _ => engine_known_type o a);
                 (NumpyResolver, numpy_prepare_pydantic_annotations) ]).
      * repeat constructor; try assumption;
          apply Hd; simpl; try tauto; discriminate.
      * repeat constructor; apply Hd; simpl; try tauto; discriminate.
    + apply (@try_preparers_only_candidate config_dict obj annotations
               [ (PathResolver, pathlib_prepare_pydantic_annotations);
                 (EngineResolver, fun o a _ => engine_known_type o a);
                 (NumpyResolver, numpy_prepare_pydantic_annotations);
                 (TorchResolver, torch_prepare_pydantic_annotations) ]).
      * repeat constructor; try assumption;
          apply Hd; simpl; try tauto; discriminate.
      * repeat constructor; apply Hd; simpl; try tauto; discriminate.
    + apply (@try_preparers_only_candidate config_dict obj annotations
               [ (PathResolver, pathlib_prepare_pydantic_annotations);
                 (EngineResolver, fun o a _ => engine_known_type o a);
                 (NumpyResolver, numpy_prepare_pydantic_annotations);
                 (TorchResolver, torch_prepare_pydantic_annotations);
                 (TfResolver, tf_prepare_pydantic_annotations) ]).
      * repeat constructor; try assumption;
          apply Hd; simpl; try tauto; discriminate.
      * repeat constructor; apply Hd; simpl; try tauto; discriminate.
    + apply (@try_preparers_only_candidate config_dict obj annotations
               [ (PathResolver, pathlib_prepare_pydantic_annotations);
                 (EngineResolver, fun o a _ => engine_known_type o a);
                 (NumpyResolver, numpy_prepare_pydantic_annotations);
                 (TorchResolver, torch_prepare_pydantic_annotations);
                 (TfResolver, tf_prepare_pydantic_annotations);
                 (PandasResolver, pandas_prepare_pydantic_annotations) ]).
      * repeat constructor; try assumption;
          apply Hd; simpl; try tauto; discriminate.
      * constructor.
  - intros Hnone.
    rewrite try_preparers_no_match; [reflexivity|].
    unfold resolution_chain.
    constructor; [exact Hpath|]. constructor; [exact Heng|].
    apply Forall_forall. intros [n p] Hin. unfold declines. simpl.
    apply (@custom_preparer_other_namespace n p obj annotations config_dict Hin).
    exact (Hnone n p Hin).
Qed.

Lemma dispatch_routes_by_namespace_witness :
  snd (_get_prepare_pydantic_annotations_for_known_type
         engine_knows_nothing cfg DataFrame [Shape [2%Z]]) =
  pandas_prepare_pydantic_annotations DataFrame [Shape [2%Z]] cfg
  /\
  _get_prepare_pydantic_annotations_for_known_type
    engine_knows_nothing cfg three [Shape [2%Z]] =
  ([ PathResolver; EngineResolver; NumpyResolver; TorchResolver; TfResolver;
     PandasResolver; PilResolver ], Ret None).
Proof.
  split.
  - destruct (@dispatch_routes_by_namespace
                engine_knows_nothing cfg DataFrame [Shape [2%Z]])
      as [Hroute _].
    + reflexivity.
    + simpl. intros [H|[H|[H|[H|[H|[H|[]]]]]]]; discriminate H.
    + reflexivity.
    + apply (Hroute PandasResolver pandas_prepare_pydantic_annotations).
      * simpl. tauto.
      * reflexivity.
  - destruct (@dispatch_routes_by_namespace
                engine_knows_nothing cfg three [Shape [2%Z]])
      as [_ Hnone].
    + reflexivity.
    + simpl. intros [H|[H|[H|[H|[H|[H|[]]]]]]]; discriminate H.
    + reflexivity.
    + apply Hnone. intros name preparer Hin.
      destruct (custom_preparer_cases Hin)
        as [[-> _]|[[-> _]|[[-> _]|[[-> _]|[-> _]]]]]; reflexivity.
Defined.

(** X13. A source object without a [__module__] attribute is declined by
    every family handler: the default [""] starts with none of the five
    namespaces. *)
Theorem module_attribute_edge_cases
  (source : pyobj) (annotations : list annotation) (config : ConfigDict) :
  py_module source = NoModule ->
  Forall (fun entry : resolver * Preparer =>
            snd entry source annotations config = Ret None)
         CUSTOM_PREPARE_METHODS.
Proof.
  intros Hm.
  apply Forall_forall. intros [n p] Hin. simpl.
  apply (@custom_preparer_other_namespace n p source annotations config Hin).
  unfold module_startswith. rewrite Hm.
  destruct (custom_preparer_cases Hin)
    as [[-> _]|[[-> _]|[[-> _]|[[-> _]|[-> _]]]]]; reflexivity.
Qed.

Lemma module_attribute_edge_cases_witness :
  Forall (fun entry : resolver * Preparer =>
            snd entry three [DType "int8"] cfg = Ret None)
         CUSTOM_PREPARE_METHODS.
Proof.
  apply (@module_attribute_edge_cases three [DType "int8"] cfg). reflexivity.
Defined.

(** ** Resolving a result again *)

Lemma first_of_filter_none {A : Type} (f : annotation -> option A)
  (keep : annotation -> bool) (l : list annotation) :
  (forall a, keep a = true -> f a = None) ->
  first_of f (filter keep l) = None.
Proof.
  intros Hk. induction l as [|a l IH]; [reflexivity|].
  simpl. destruct (keep a) eqn:Ha; [|exact IH].
  simpl. now rewrite (Hk a Ha), IH.
Qed.

Lemma filter_twice {A : Type} (keep : A -> bool) (l : list A) :
  filter keep (filter keep l) = filter keep l.
Proof.
  induction l as [|a l IH]; [reflexivity|].
  simpl. destruct (keep a) eqn:Ha; [|exact IH].
  simpl. now rewrite Ha, IH.
Qed.

Lemma other_annotations_filter (keep : annotation -> bool) (l : list annotation) :
  other_annotations (filter keep (other_annotations l)) =
  filter keep (other_annotations l).
Proof.
  apply other_annotations_unknown. apply Forall_forall.
  intros a Ha. apply filter_In in Ha. destruct Ha as [Ha _].
  now apply In_other_annotations in Ha.
Qed.

(** X14. The tensor and path handlers consume their hints once.  Resolving
    the annotations they return again finds no [Shape], [DType] or
    [ContentType]: it puts an empty [TensorSchema], or [FileSchema(None)],
    in front of the earlier result and removes nothing. *)
Theorem hints_are_consumed_once
  (source : pyobj) (annotations : list annotation) (config : ConfigDict) :
  (torch_family source ->
   exists out,
     torch_prepare_pydantic_annotations source annotations config =
     Ret (Some (source, out)) /\
     torch_prepare_pydantic_annotations source out config =
     Ret (Some (source, TensorSchema "torch-tensor" None None :: out)))
  /\
  (tf_family source ->
   exists out,
     tf_prepare_pydantic_annotations source annotations config =
     Ret (Some (source, out)) /\
     tf_prepare_pydantic_annotations source out config =
     Ret (Some (source, TensorSchema "tf-tensor" None None :: out)))
  /\
  (py_hashable source = true -> In (py_id source) path_types ->
   exists out,
     pathlib_prepare_pydantic_annotations source annotations config =
     Ret (Some (source, out)) /\
     pathlib_prepare_pydantic_annotations source out config =
     Ret (Some (source, FileSchema None :: out))).
Proof.
  split; [|split].
  - intros [Hmod Hsub]. rewrite !torch_prepare_closed, Hmod, Hsub.
    eexists. split; [reflexivity|].
    rewrite torch_prepare_closed, Hmod, Hsub. simpl first_of.
    rewrite !first_of_filter_none
      by (intros a Ha; destruct a; try reflexivity; discriminate Ha).
    rewrite other_annotations_cons. simpl.
    now rewrite other_annotations_filter, filter_twice.
  - intros [Hmod Hsub]. rewrite !tf_prepare_closed, Hmod, Hsub.
    eexists. split; [reflexivity|].
    rewrite tf_prepare_closed, Hmod, Hsub. simpl first_of.
    rewrite !first_of_filter_none
      by (intros a Ha; destruct a; try reflexivity; discriminate Ha).
    rewrite other_annotations_cons. simpl.
    now rewrite other_annotations_filter, filter_twice.
  - intros Hhash Hin.
    apply (existsb_eqb_In (py_id source) path_types) in Hin.
    rewrite !pathlib_prepare_closed, Hhash, Hin.
    eexists. split; [reflexivity|].
    rewrite pathlib_prepare_closed, Hhash, Hin. simpl first_of.
    rewrite first_of_filter_none
      by (intros a Ha; destruct a; try reflexivity; discriminate Ha).
    rewrite other_annotations_cons. simpl.
    now rewrite other_annotations_filter, filter_twice.
Qed.

Lemma hints_are_consumed_once_witness :
  (exists out,
      torch_prepare_pydantic_annotations Tensor [DType "int8"; Shape [2%Z]] cfg =
      Ret (Some (Tensor, out)) /\
      torch_prepare_pydantic_annotations Tensor out cfg =
      Ret (Some (Tensor, TensorSchema "torch-tensor" None None :: out)))
  /\
  (exists out,
      tf_prepare_pydantic_annotations tfTensor [DType "int8"; Shape [2%Z]] cfg =
      Ret (Some (tfTensor, out)) /\
      tf_prepare_pydantic_annotations tfTensor out cfg =
      Ret (Some (tfTensor, TensorSchema "tf-tensor" None None :: out)))
  /\
  (exists out,
      pathlib_prepare_pydantic_annotations Path [ContentType "text/csv"] cfg =
      Ret (Some (Path, out)) /\
      pathlib_prepare_pydantic_annotations Path out cfg =
      Ret (Some (Path, FileSchema None :: out))).
Proof.
  split; [|split].
  - apply (@hints_are_consumed_once Tensor [DType "int8"; Shape [2%Z]] cfg).
    split; reflexivity.
  - apply (@hints_are_consumed_once tfTensor [DType "int8"; Shape [2%Z]] cfg).
    split; reflexivity.
  - apply (@hints_are_consumed_once Path [ContentType "text/csv"] cfg).
    + reflexivity.
    + simpl. tauto.
Defined.

(** ** The version gate *)

Lemma tuple_lt_nil_r (a : list Z) : tuple_lt a [] = false.
Proof. now destruct a. Qed.

(** X15. The package imports exactly when the version tuple of [pydantic]
    is not below [(2,)], that is when it has a first component and this one
    is at least 2; otherwise it raises ImportError, and the message gives the
    version with dots between its components. *)
Theorem sdk_init_requires_pydantic_2 (ver : list Z) :
  (sdk_init ver = Imported <->
   exists major rest, ver = major :: rest /\ (2 <= major)%Z)
  /\
  (sdk_init ver <> Imported ->
   sdk_init ver =
   ImportError ("The new SDK runs on pydantic>=2.0.0, but the you have "
                ++ dotted ver ++ ". Please upgrade it.")%string).
Proof.
  unfold sdk_init. destruct ver as [|major rest]; simpl tuple_lt.
  - split; [|reflexivity]. split; [discriminate|].
    intros [m [r [H _]]]. discriminate H.
  - rewrite tuple_lt_nil_r.
    destruct (Z.eqb_spec major 2) as [->|Hne].
    + split; [|intros H; now elim H]. split; [|reflexivity].
      intros _. exists 2%Z, rest. split; [reflexivity|lia].
    + destruct (Z.ltb_spec major 2) as [Hlt|Hge].
      * split; [|reflexivity]. split; [discriminate|].
        intros [m [r [H Hm]]]. injection H as <- <-. lia.
      * split; [|intros H; now elim H]. split; [|reflexivity].
        intros _. exists major, rest. split; [reflexivity|lia].
Qed.

(** Version 1.10.13 is refused. *)
Lemma sdk_init_requires_pydantic_2_witness :
  sdk_init [1%Z; 10%Z; 13%Z] =
  ImportError
    "The new SDK runs on pydantic>=2.0.0, but the you have 1.10.13. Please upgrade it.".
Proof.
  apply (proj2 (sdk_init_requires_pydantic_2 [1%Z; 10%Z; 13%Z])).
  discriminate.
Defined.

(** Versions 1.10.13 and the empty tuple are refused, 2.0.0 and [(2,)] pass. *)
Lemma sdk_init_examples :
  sdk_init [1%Z; 10%Z; 13%Z] =
  ImportError
    "The new SDK runs on pydantic>=2.0.0, but the you have 1.10.13. Please upgrade it."
  /\ sdk_init [] =
     ImportError
       "The new SDK runs on pydantic>=2.0.0, but the you have . Please upgrade it."
  /\ sdk_init [2%Z; 0%Z; 0%Z] = Imported
  /\ sdk_init [2%Z] = Imported.
Proof.
  repeat split.
Qed.
